(** * create_design_ideas: image-to-image request assembly and response decoding

    A shallow embedding of the code cells of
    [notebooks/create_design_ideas.ipynb]:

    - [image_to_base64]          (the conversion helper),
    - [sd_request]               (the request body handed to [invoke_model]),
    - [decode_response]          (the cell that renders the generated image).

    Python values are a small tagged universe ([pyval]); exceptions are an
    error monad ([result]); the Python and PIL library calls the cells make
    ([base64], [json.dumps], [os.path.isfile], [open], [bytes(_, "utf-8")],
    [Image.save], [Image.open], [Image.resize]) are modelled next to the
    code that calls them. *)

From Stdlib Require Import ZArith NArith List String Ascii Bool Lia.
From Stdlib.Strings Require Import Byte.
From Stdlib Require Import PrimFloat DecimalString.
Import ListNotations.

Set Implicit Arguments.
Set Warnings "-register-all".

Local Open Scope N_scope.

(** ** Python data *)

(** A Python [str] is a sequence of Unicode code points. *)
Definition str := list N.

(** ASCII literals of the notebook, as [str]. *)
Definition py (s : string) : str :=
  map N_of_ascii (list_ascii_of_string s).

(** A Python [bytes] object. *)
Definition bytes := list byte.

(** C's store into an [unsigned char]: the low eight bits. *)
Definition byte_of_N (n : N) : byte :=
  match Byte.of_N (n mod 256) with
  | Some b => b
  | None => x00
  end.

(** A decoded PIL image: its [(width, height)] and its raster. *)
Record Image := mkImage {
  im_size : N * N;
  im_data : bytes
}.

(** The values the cells handle. Dictionaries keep insertion order, which
    [json.dumps] follows; every dictionary of the notebook (the request
    literal, a parsed JSON object) has [str] keys. *)
Inductive pyval :=
| PyNone
| PyBool (b : bool)
| PyInt (z : Z)
| PyFloat (f : float)
| PyStr (s : str)
| PyBytes (bs : bytes)
| PyList (l : list pyval)
| PyDict (d : list (str * pyval))
| PyImage (im : Image).

(** [type(v).__name__]. *)
Definition type_name (v : pyval) : string :=
  match v with
  | PyNone => "NoneType"
  | PyBool _ => "bool"
  | PyInt _ => "int"
  | PyFloat _ => "float"
  | PyStr _ => "str"
  | PyBytes _ => "bytes"
  | PyList _ => "list"
  | PyDict _ => "dict"
  | PyImage _ => "Image"
  end.

(** ** Exceptions *)

Inductive exn :=
| FileNotFoundError (msg : str)
| IsADirectoryError (msg : str)
| PermissionError (errno : Z) (strerror : str) (filename : str)
| NameError (msg : str)
| ValueError (msg : str)
| TypeError (msg : str)
| IndexError (msg : str)
| KeyError (key : pyval)
| AttributeError (msg : str)
| UnicodeEncodeError
| UnicodeDecodeError
| binascii_Error (msg : str)
| UnidentifiedImageError.

Inductive result (A : Type) :=
| Ok (a : A)
| Raise (e : exn).

Arguments Ok {A} a.
Arguments Raise {A} e.

Definition bind {A B} (r : result A) (k : A -> result B) : result B :=
  match r with
  | Ok a => k a
  | Raise e => Raise e
  end.

Notation "x <- r ;; k" := (bind r (fun x => k))
  (at level 61, r at next level, right associativity).

Definition fmap {A B} (f : A -> B) (r : result A) : result B :=
  x <- r ;; Ok (f x).

(** ** Dictionaries and lists *)

Definition str_eqb (a b : str) : bool :=
  if list_eq_dec N.eq_dec a b then true else false.

(** [d.get(key)] on an insertion-ordered dictionary, [None] when absent. *)
Fixpoint dict_lookup (d : list (str * pyval)) (key : str) : option pyval :=
  match d with
  | [] => None
  | (k, v) :: d' => if str_eqb k key then Some v else dict_lookup d' key
  end.

(** ** Text codecs *)

Definition all_ascii (s : str) : bool := forallb (fun c => c <? 128) s.

(** [s.encode("ascii")] *)
Definition encode_ascii (s : str) : result bytes :=
  if all_ascii s then Ok (map byte_of_N s) else Raise UnicodeEncodeError.

(** One code point in UTF-8; surrogates are refused. A [str] holds no code
    point above 0x10FFFF. *)
Definition utf8_encode_char (c : N) : result bytes :=
  if c <? 0x80 then Ok [byte_of_N c]
  else if c <? 0x800 then
    Ok [byte_of_N (N.lor 0xC0 (N.shiftr c 6));
        byte_of_N (N.lor 0x80 (N.land c 0x3F))]
  else if (0xD800 <=? c) && (c <? 0xE000) then Raise UnicodeEncodeError
  else if c <? 0x10000 then
    Ok [byte_of_N (N.lor 0xE0 (N.shiftr c 12));
        byte_of_N (N.lor 0x80 (N.land (N.shiftr c 6) 0x3F));
        byte_of_N (N.lor 0x80 (N.land c 0x3F))]
  else
    Ok [byte_of_N (N.lor 0xF0 (N.shiftr c 18));
        byte_of_N (N.lor 0x80 (N.land (N.shiftr c 12) 0x3F));
        byte_of_N (N.lor 0x80 (N.land (N.shiftr c 6) 0x3F));
        byte_of_N (N.lor 0x80 (N.land c 0x3F))].

(** [s.encode("utf-8")] *)
Fixpoint encode_utf8 (s : str) : result bytes :=
  match s with
  | [] => Ok []
  | c :: s' =>
      bs <- utf8_encode_char c ;;
      rest <- encode_utf8 s' ;;
      Ok (bs ++ rest)
  end.

Definition in_range (lo hi n : N) : bool := (lo <=? n) && (n <=? hi).

Definition is_continuation (b : byte) : bool := in_range 0x80 0xBF (Byte.to_N b).

Definition low6 (b : byte) : N := N.land (Byte.to_N b) 0x3F.

(** [b.decode("utf-8")], strict: malformed, overlong and surrogate
    sequences raise. *)
Fixpoint decode_utf8 (bs : bytes) : result str :=
  match bs with
  | [] => Ok []
  | b0 :: r0 =>
      let n0 := Byte.to_N b0 in
      if n0 <? 0x80 then fmap (cons n0) (decode_utf8 r0)
      else if in_range 0xC2 0xDF n0 then
        match r0 with
        | b1 :: r1 =>
            if is_continuation b1
            then fmap (cons (N.lor (N.shiftl (N.land n0 0x1F) 6) (low6 b1)))
                      (decode_utf8 r1)
            else Raise UnicodeDecodeError
        | _ => Raise UnicodeDecodeError
        end
      else if in_range 0xE0 0xEF n0 then
        match r0 with
        | b1 :: b2 :: r2 =>
            let n1 := Byte.to_N b1 in
            if (if n0 =? 0xE0 then in_range 0xA0 0xBF n1
                else if n0 =? 0xED then in_range 0x80 0x9F n1
                else in_range 0x80 0xBF n1)
               && is_continuation b2
            then fmap (cons (N.lor (N.shiftl (N.land n0 0x0F) 12)
                               (N.lor (N.shiftl (low6 b1) 6) (low6 b2))))
                      (decode_utf8 r2)
            else Raise UnicodeDecodeError
        | _ => Raise UnicodeDecodeError
        end
      else if in_range 0xF0 0xF4 n0 then
        match r0 with
        | b1 :: b2 :: b3 :: r3 =>
            let n1 := Byte.to_N b1 in
            if (if n0 =? 0xF0 then in_range 0x90 0xBF n1
                else if n0 =? 0xF4 then in_range 0x80 0x8F n1
                else in_range 0x80 0xBF n1)
               && is_continuation b2 && is_continuation b3
            then fmap (cons (N.lor (N.shiftl (N.land n0 0x07) 18)
                               (N.lor (N.shiftl (low6 b1) 12)
                                  (N.lor (N.shiftl (low6 b2) 6) (low6 b3)))))
                      (decode_utf8 r3)
            else Raise UnicodeDecodeError
        | _ => Raise UnicodeDecodeError
        end
      else Raise UnicodeDecodeError
  end.

(** [bytes(x, "utf-8")]: only a [str] can be encoded. *)
Definition bytes_of (x : pyval) : result bytes :=
  match x with
  | PyStr s => encode_utf8 s
  | _ => Raise (TypeError (py "encoding without a string argument"))
  end.

(** ** base64 (CPython 3.10's [binascii]) *)

Definition BASE64_PAD : byte := "=".

Definition table_b2a_base64 : string :=
  "ABCDEFGHIJKLMNOPQRSTUVWXYZabcdefghijklmnopqrstuvwxyz0123456789+/".

(** [table_b2a_base64[n]] *)
Definition b2a (n : N) : byte :=
  match String.get (N.to_nat n) table_b2a_base64 with
  | Some c => byte_of_ascii c
  | None => x00
  end.

(** [binascii.b2a_base64(bin, newline=False)]: three bytes give four
    alphabet characters; a last group of one or two bytes is padded. *)
Fixpoint b2a_base64 (bin : bytes) : bytes :=
  match bin with
  | [] => []
  | [b0] =>
      let n0 := Byte.to_N b0 in
      [b2a (N.shiftr n0 2);
       b2a (N.shiftl (N.land n0 3) 4);
       BASE64_PAD; BASE64_PAD]
  | [b0; b1] =>
      let n0 := Byte.to_N b0 in
      let n1 := Byte.to_N b1 in
      [b2a (N.shiftr n0 2);
       b2a (N.lor (N.shiftl (N.land n0 3) 4) (N.shiftr n1 4));
       b2a (N.shiftl (N.land n1 0xf) 2);
       BASE64_PAD]
  | b0 :: b1 :: b2 :: rest =>
      let n0 := Byte.to_N b0 in
      let n1 := Byte.to_N b1 in
      let n2 := Byte.to_N b2 in
      b2a (N.shiftr n0 2)
      :: b2a (N.lor (N.shiftl (N.land n0 3) 4) (N.shiftr n1 4))
      :: b2a (N.lor (N.shiftl (N.land n1 0xf) 2) (N.shiftr n2 6))
      :: b2a (N.land n2 0x3f)
      :: b2a_base64 rest
  end.

(** [table_a2b_base64[c]]: the six-bit value of an alphabet character,
    255 for every other byte. *)
Definition table_a2b_base64 (c : byte) : N :=
  let n := Byte.to_N c in
  if in_range 65 90 n then n - 65
  else if in_range 97 122 n then n - 71
  else if in_range 48 57 n then n + 4
  else if n =? 43 then 62
  else if n =? 47 then 63
  else 255.

(** Decimal [repr] of a non-negative integer. *)
Definition N_repr (n : N) : str :=
  py (NilZero.string_of_uint (N.to_uint n)).

(** The decoding loop of [binascii.a2b_base64] (not strict): characters
    outside the alphabet are skipped, a pad that completes a quad ends the
    input, and a quad left open at the end of the input is an error. *)
Fixpoint a2b_loop (ascii_data : bytes) (quad_pos leftchar pads : N)
    (bin_data : bytes) : result bytes :=
  match ascii_data with
  | [] =>
      if quad_pos =? 0 then Ok bin_data
      else if quad_pos =? 1 then
        Raise (binascii_Error
                 (py "Invalid base64-encoded string: number of data characters ("
                  ++ N_repr (N.of_nat (List.length bin_data) / 3 * 4 + 1)
                  ++ py ") cannot be 1 more than a multiple of 4"))
      else Raise (binascii_Error (py "Incorrect padding"))
  | this_ch :: rest =>
      if Byte.eqb this_ch BASE64_PAD then
        if 2 <=? quad_pos then
          if 4 <=? quad_pos + (pads + 1) then Ok bin_data
          else a2b_loop rest quad_pos leftchar (pads + 1) bin_data
        else a2b_loop rest quad_pos leftchar pads bin_data
      else
        let this_ch := table_a2b_base64 this_ch in
        if 64 <=? this_ch then a2b_loop rest quad_pos leftchar pads bin_data
        else
          match quad_pos with
          | 0 => a2b_loop rest 1 this_ch 0 bin_data
          | 1 =>
              a2b_loop rest 2 (N.land this_ch 0x0f) 0
                (bin_data
                 ++ [byte_of_N (N.lor (N.shiftl leftchar 2) (N.shiftr this_ch 4))])
          | 2 =>
              a2b_loop rest 3 (N.land this_ch 0x03) 0
                (bin_data
                 ++ [byte_of_N (N.lor (N.shiftl leftchar 4) (N.shiftr this_ch 2))])
          | _ =>
              a2b_loop rest 0 0 0
                (bin_data ++ [byte_of_N (N.lor (N.shiftl leftchar 6) this_ch)])
          end
  end.

Definition a2b_base64 (data : bytes) : result bytes :=
  a2b_loop data 0 0 0 [].

(** [base64.b64encode(s)] *)
Definition b64encode (s : bytes) : bytes := b2a_base64 s.

(** [base64.decodebytes(s)] *)
Definition decodebytes (s : bytes) : result bytes := a2b_base64 s.

(** [base64.b64decode(s)] for a [str] argument. *)
Definition b64decode (s : str) : result bytes :=
  match encode_ascii s with
  | Ok data => a2b_base64 data
  | Raise _ =>
      Raise (ValueError (py "string argument should contain only ASCII characters"))
  end.

(** ** The file system *)

(** What a path can name: a regular file the process may read, a regular
    file it has no permission to read, or a directory. *)
Inductive node :=
| RegularFile (content : bytes)
| UnreadableFile
| Directory.

(** What each path names, if anything. *)
Definition filesystem := str -> option node.

(** [os.path.isfile(path)] *)
Definition os_path_isfile (fs : filesystem) (path : str) : bool :=
  match fs path with
  | Some (RegularFile _) => true
  | Some UnreadableFile => true
  | _ => false
  end.

(** [with open(path, "rb") as f: f.read()] *)
Definition open_rb_read (fs : filesystem) (path : str) : result bytes :=
  match fs path with
  | Some (RegularFile content) => Ok content
  | Some UnreadableFile =>
      Raise (PermissionError 13 (py "Permission denied") path)
  | Some Directory =>
      Raise (IsADirectoryError (py "[Errno 21] Is a directory: " ++ path))
  | None =>
      Raise (FileNotFoundError (py "[Errno 2] No such file or directory: " ++ path))
  end.

(** ** Image conversion (cell [image_to_base64]) *)

(** [str(type(v))] *)
Definition type_repr (v : pyval) : str :=
  match v with
  | PyImage _ => py "<class 'PIL.Image.Image'>"
  | _ => py "<class '" ++ py (type_name v) ++ py "'>"
  end.

Section Conversion.

(** PIL's PNG encoder: [img.save(buffer, format="PNG")] followed by
    [buffer.getvalue()]; it refuses images it cannot write as PNG. *)
Variable Image_save_png : Image -> result bytes.

(** PIL's [img.resize(size)]. *)
Variable Image_resize : Image -> N * N -> Image.

Definition image_to_base64 (fs : filesystem) (img : pyval) : result str :=
  match img with
  | PyStr path =>
      if os_path_isfile fs path then
        data <- open_rb_read fs path ;;
        decode_utf8 (b64encode data)
      else
        Raise (FileNotFoundError (py "File " ++ path ++ py " does not exist"))
  | PyImage im =>
      buffer <- Image_save_png im ;;
      decode_utf8 (b64encode buffer)
  | _ =>
      Raise (ValueError
               (py "Expected str (filename) or PIL Image. Got " ++ type_repr img))
  end.

(** Cells [resize] and [init_image_b64]. *)
Definition init_image_b64 (fs : filesystem) (image : Image) : result str :=
  let resize := Image_resize image (512, 512) in
  image_to_base64 fs (PyImage resize).

End Conversion.

(** ** The notebook's state *)

(** What a cell can read and change: the file system and the global
    names. *)
Record notebook := mkNotebook {
  nb_fs : filesystem;
  nb_globals : list (str * pyval)
}.

(** Reading a global name. *)
Definition load_name (globals : list (str * pyval)) (name : str) : result pyval :=
  match dict_lookup globals name with
  | Some v => Ok v
  | None => Raise (NameError (py "name '" ++ name ++ py "' is not defined"))
  end.

(** [d[key] = v]: a key already present keeps its place. *)
Fixpoint store_name (globals : list (str * pyval)) (name : str) (v : pyval)
  : list (str * pyval) :=
  match globals with
  | [] => [(name, v)]
  | (k, x) :: rest =>
      if str_eqb k name then (k, v) :: rest
      else (k, x) :: store_name rest name v
  end.

(** The items a [for] clause draws from a value. *)
Definition iterate (o : pyval) : result (list pyval) :=
  match o with
  | PyList l => Ok l
  | PyStr s => Ok (map (fun c => PyStr [c]) s)
  | PyBytes bs => Ok (map (fun b => PyInt (Z.of_N (Byte.to_N b))) bs)
  | PyDict d => Ok (map (fun kv => PyStr (fst kv)) d)
  | _ =>
      Raise (TypeError (py "'" ++ py (type_name o) ++ py "' object is not iterable"))
  end.

(** ** Request assembly (cell [sd_request]) *)

Definition change_prompt : str := py "add floral prints to dress".

Definition negative_prompts : list str :=
  [py "poorly rendered"; py "low quality"; py "disfigured"; py "disproportional"].

(** [{"text": t, "weight": w}] *)
Definition prompt_term (t : pyval) (w : float) : pyval :=
  PyDict [(py "text", t); (py "weight", PyFloat w)].

(** The value of the ["text_prompts"] key; [negative_prompts] is what the
    comprehension iterates over. *)
Definition text_prompts (change_prompt : pyval) (negative_prompts : list pyval)
  : list pyval :=
  [prompt_term change_prompt 1.0%float]
  ++ map (fun negprompt => prompt_term negprompt (-1.0)%float) negative_prompts.

(** The dictionary literal handed to [json.dumps]. *)
Definition sd_request_dict (change_prompt : pyval)
    (negative_prompts : list pyval) (init_image_b64 : pyval) : pyval :=
  PyDict
    [ (py "text_prompts", PyList (text_prompts change_prompt negative_prompts));
      (py "cfg_scale", PyInt 10);
      (py "init_image", init_image_b64);
      (py "seed", PyInt 0);
      (py "start_schedule", PyFloat 0.5%float);
      (py "steps", PyInt 30);
      (py "style_preset", PyStr (py "photographic"));
      (py "image_strength", PyFloat 0.5%float);
      (py "denoising_strength", PyFloat 0.5%float) ].

(** [request["text_prompts"]] of an assembled request. *)
Definition request_text_prompts (req : pyval) : option (list pyval) :=
  match req with
  | PyDict d =>
      match dict_lookup d (py "text_prompts") with
      | Some (PyList l) => Some l
      | _ => None
      end
  | _ => None
  end.

(** ** Serialization ([json.dumps] with its default settings) *)

(** [sep.join(items)] *)
Fixpoint join (sep : str) (items : list str) : str :=
  match items with
  | [] => []
  | [x] => x
  | x :: rest => x ++ sep ++ join sep rest
  end.

Definition hex_digit (n : N) : N := if n <? 10 then 48 + n else 87 + n.

(** ['{0:04x}'.format(n)] for [n < 0x10000] *)
Definition hex4 (n : N) : str :=
  [hex_digit (N.land (N.shiftr n 12) 15);
   hex_digit (N.land (N.shiftr n 8) 15);
   hex_digit (N.land (N.shiftr n 4) 15);
   hex_digit (N.land n 15)].

(** The replacement [json.encoder] makes for one character when
    [ensure_ascii] is set: backslash (92) and the double quote (34) are
    escaped, the printable ASCII range is kept, everything else becomes a
    short escape or [\uXXXX], with a surrogate pair above the basic plane. *)
Definition escape_char (c : N) : str :=
  if c =? 92 then [92; 92]
  else if c =? 34 then [92; 34]
  else if in_range 32 126 c then [c]
  else if c =? 8 then py "\b"
  else if c =? 12 then py "\f"
  else if c =? 10 then py "\n"
  else if c =? 13 then py "\r"
  else if c =? 9 then py "\t"
  else if c <? 0x10000 then py "\u" ++ hex4 c
  else
    let n := c - 0x10000 in
    let s1 := N.lor 0xd800 (N.land (N.shiftr n 10) 0x3ff) in
    let s2 := N.lor 0xdc00 (N.land n 0x3ff) in
    py "\u" ++ hex4 s1 ++ py "\u" ++ hex4 s2.

Definition encode_basestring_ascii (s : str) : str :=
  [34] ++ flat_map escape_char s ++ [34].

(** The decimal digits of an integer, with its sign. *)
Definition int_repr (z : Z) : str := py (NilZero.string_of_int (Z.to_int z)).

(** [sys.get_int_max_str_digits()], as the interpreter starts. *)
Definition int_max_str_digits : nat := 4300.

(** [int.__repr__]: an integer of more decimal digits than the limit is
    refused (CPython 3.10.7 and later). *)
Definition int_str (z : Z) : result str :=
  if (int_max_str_digits <? List.length (int_repr (Z.abs z)))%nat
  then Raise (ValueError (py "Exceeds the limit (4300) for integer string conversion"))
  else Ok (int_repr z).

(** The text of a JSON array, of a key with its value, and of a JSON
    object, with the default separators. *)
Definition json_array (items : list str) : str :=
  py "[" ++ join (py ", ") items ++ py "]".

Definition json_pair (key value : str) : str :=
  encode_basestring_ascii key ++ py ": " ++ value.

Definition json_object (pairs : list str) : str :=
  py "{" ++ join (py ", ") pairs ++ py "}".

Section Serialization.

(** [float.__repr__] on a finite float. *)
Variable float_repr : float -> str.

Definition floatstr (o : float) : str :=
  if negb (PrimFloat.eqb o o) then py "NaN"
  else if PrimFloat.eqb o infinity then py "Infinity"
  else if PrimFloat.eqb o neg_infinity then py "-Infinity"
  else float_repr o.

(** [json.dumps(o)]. Nesting is taken to stay within the interpreter's
    recursion limit; the request nests three deep. *)
Fixpoint json_dumps (o : pyval) : result str :=
  match o with
  | PyNone => Ok (py "null")
  | PyBool true => Ok (py "true")
  | PyBool false => Ok (py "false")
  | PyInt z => int_str z
  | PyFloat f => Ok (floatstr f)
  | PyStr s => Ok (encode_basestring_ascii s)
  | PyList l =>
      items <- (fix dumps_items (l : list pyval) : result (list str) :=
                  match l with
                  | [] => Ok []
                  | x :: l' =>
                      chunk <- json_dumps x ;;
                      chunks <- dumps_items l' ;;
                      Ok (chunk :: chunks)
                  end) l ;;
      Ok (json_array items)
  | PyDict d =>
      items <- (fix dumps_pairs (d : list (str * pyval)) : result (list str) :=
                  match d with
                  | [] => Ok []
                  | (k, v) :: d' =>
                      chunk <- json_dumps v ;;
                      chunks <- dumps_pairs d' ;;
                      Ok (json_pair k chunk :: chunks)
                  end) d ;;
      Ok (json_object items)
  | PyBytes _ | PyImage _ =>
      Raise (TypeError (py "Object of type " ++ py (type_name o)
                        ++ py " is not JSON serializable"))
  end.

(** The items of a list, serialized left to right. *)
Fixpoint dumps_list (l : list pyval) : result (list str) :=
  match l with
  | [] => Ok []
  | x :: l' =>
      chunk <- json_dumps x ;;
      chunks <- dumps_list l' ;;
      Ok (chunk :: chunks)
  end.

(** The pairs of a dictionary, serialized in insertion order. *)
Fixpoint dumps_dict (d : list (str * pyval)) : result (list str) :=
  match d with
  | [] => Ok []
  | (k, v) :: d' =>
      chunk <- json_dumps v ;;
      chunks <- dumps_dict d' ;;
      Ok (json_pair k chunk :: chunks)
  end.

(** The expression of cell [sd_request], for a prompt string, a list of
    negative prompt strings and an image string. *)
Definition sd_request (change_prompt : str) (negative_prompts : list str)
    (init_image_b64 : str) : result str :=
  json_dumps (sd_request_dict (PyStr change_prompt)
                (map PyStr negative_prompts) (PyStr init_image_b64)).

(** Cell [sd_request], run on the notebook's state: the three names are
    read in the order the dictionary display evaluates them, the
    comprehension iterates over [negative_prompts], and the result is bound
    to [sd_request]. *)
Definition sd_request_cell (nb : notebook) : result notebook :=
  change_prompt <- load_name (nb_globals nb) (py "change_prompt") ;;
  negative_prompts <- load_name (nb_globals nb) (py "negative_prompts") ;;
  negprompts <- iterate negative_prompts ;;
  init_image_b64 <- load_name (nb_globals nb) (py "init_image_b64") ;;
  body <- json_dumps (sd_request_dict change_prompt negprompts init_image_b64) ;;
  Ok {| nb_fs := nb_fs nb;
        nb_globals := store_name (nb_globals nb) (py "sd_request") (PyStr body) |}.

(** The text of one prompt term. *)
Definition prompt_term_text (t : str) (w : float) : str :=
  json_object [json_pair (py "text") (encode_basestring_ascii t);
               json_pair (py "weight") (floatstr w)].

(** The request body, written out. *)
Definition sd_request_text (change_prompt : str) (negative_prompts : list str)
    (init_image_b64 : str) : str :=
  json_object
    [ json_pair (py "text_prompts")
        (json_array
           (prompt_term_text change_prompt 1.0%float
            :: map (fun negprompt => prompt_term_text negprompt (-1.0)%float)
                 negative_prompts));
      json_pair (py "cfg_scale") (py "10");
      json_pair (py "init_image") (encode_basestring_ascii init_image_b64);
      json_pair (py "seed") (py "0");
      json_pair (py "start_schedule") (floatstr 0.5%float);
      json_pair (py "steps") (py "30");
      json_pair (py "style_preset") (encode_basestring_ascii (py "photographic"));
      json_pair (py "image_strength") (floatstr 0.5%float);
      json_pair (py "denoising_strength") (floatstr 0.5%float) ].

End Serialization.

(** ** Response decoding (the rendering cell) *)

(** The position a list index names, Python's negative indices included. *)
Definition list_index (len : nat) (i : Z) : option nat :=
  let j := if (i <? 0)%Z then (i + Z.of_nat len)%Z else i in
  if (0 <=? j)%Z && (j <? Z.of_nat len)%Z then Some (Z.to_nat j) else None.

Definition not_subscriptable (o : pyval) : exn :=
  TypeError (py "'" ++ py (type_name o) ++ py "' object is not subscriptable").

(** [o[key]] for a [str] key. *)
Definition getitem_str (o : pyval) (key : str) : result pyval :=
  match o with
  | PyDict d =>
      match dict_lookup d key with
      | Some v => Ok v
      | None => Raise (KeyError (PyStr key))
      end
  | PyList _ => Raise (TypeError (py "list indices must be integers or slices, not str"))
  | PyStr _ => Raise (TypeError (py "string indices must be integers"))
  | PyBytes _ => Raise (TypeError (py "byte indices must be integers or slices, not str"))
  | _ => Raise (not_subscriptable o)
  end.

(** [o[i]] for an [int] index. *)
Definition getitem_int (o : pyval) (i : Z) : result pyval :=
  match o with
  | PyList l =>
      match list_index (List.length l) i with
      | Some k =>
          match nth_error l k with
          | Some v => Ok v
          | None => Raise (IndexError (py "list index out of range"))
          end
      | None => Raise (IndexError (py "list index out of range"))
      end
  | PyStr s =>
      match list_index (List.length s) i with
      | Some k =>
          match nth_error s k with
          | Some c => Ok (PyStr [c])
          | None => Raise (IndexError (py "string index out of range"))
          end
      | None => Raise (IndexError (py "string index out of range"))
      end
  | PyBytes bs =>
      match list_index (List.length bs) i with
      | Some k =>
          match nth_error bs k with
          | Some b => Ok (PyInt (Z.of_N (Byte.to_N b)))
          | None => Raise (IndexError (py "index out of range"))
          end
      | None => Raise (IndexError (py "index out of range"))
      end
  | PyDict _ => Raise (KeyError (PyInt i))
  | _ => Raise (not_subscriptable o)
  end.

(** [o.get(key)]: only a dictionary has the method. *)
Definition method_get (o : pyval) (key : str) : result pyval :=
  match o with
  | PyDict d =>
      match dict_lookup d key with
      | Some v => Ok v
      | None => Ok PyNone
      end
  | _ =>
      Raise (AttributeError
               (py "'" ++ py (type_name o) ++ py "' object has no attribute 'get'"))
  end.

(** Line 304: [response_body["artifacts"][0].get("base64")]. *)
Definition genimage_b64_str (response_body : pyval) : result pyval :=
  artifacts <- getitem_str response_body (py "artifacts") ;;
  artifact <- getitem_int artifacts 0 ;;
  method_get artifact (py "base64").

Section Decoding.

(** PIL's [Image.open(io.BytesIO(data))]. *)
Variable Image_open : bytes -> result Image.

(** Line 305, applied to the extracted field. *)
Definition open_b64 (b64 : pyval) : result Image :=
  data <- bytes_of b64 ;;
  raw <- decodebytes data ;;
  Image_open raw.

(** Lines 304-305: the image the cell shows, from the parsed body. *)
Definition decode_response (response_body : pyval) : result Image :=
  b64 <- genimage_b64_str response_body ;;
  open_b64 b64.

End Decoding.

(** ** Exhaustive checks *)

(** Checking a decidable property on every number below a bound. *)
Fixpoint below (n : nat) (P : N -> bool) : bool :=
  match n with
  | O => true
  | S k => P (N.of_nat k) && below k P
  end.

(** ** PNG streams *)







(** The bytes a valid input of [image_to_base64] stands for: the content of
    the file a path names, or the PNG stream PIL writes for a decoded
    image. *)
Inductive input_bytes (Image_save_png : Image -> result bytes) (fs : filesystem)
  : pyval -> bytes -> Prop :=
| input_path path content :
    fs path = Some (RegularFile content) ->
    input_bytes Image_save_png fs (PyStr path) content
| input_image im png :
    Image_save_png im = Ok png ->
    input_bytes Image_save_png fs (PyImage im) png.

(** The code points of ASCII bytes. *)
Definition ascii_text (bs : bytes) : str := map Byte.to_N bs.

(** ** Sample data *)

(** The bytes of an ASCII literal. *)
Definition ascii_bytes (s : string) : bytes :=
  map byte_of_ascii (list_ascii_of_string s).

(** A file system with one text file and one directory. *)
Definition sample_fs : filesystem :=
  fun path =>
    if str_eqb path (py "notes.txt") then Some (RegularFile [x68; x69])
    else if str_eqb path (py "images") then Some Directory
    else None.

(** A file system whose one file the process may not read. *)
Definition locked_fs : filesystem :=
  fun path =>
    if str_eqb path (py "secret.png") then Some UnreadableFile else None.

(** A notebook state in which the prompts and the image string are bound. *)
Definition sample_notebook : notebook :=
  {| nb_fs := sample_fs;
     nb_globals :=
       [(py "image_url", PyStr (py "https://example.org/dress.jpg"));
        (py "init_image_b64", PyStr (py "aGk="));
        (py "change_prompt", PyStr change_prompt);
        (py "negative_prompts", PyList (map PyStr negative_prompts))] |}.

(** A stand-in for [float.__repr__] that is right on the three floats of
    the request. *)
Definition sample_float_repr (f : float) : str :=
  if PrimFloat.eqb f 1.0%float then py "1.0"
  else if PrimFloat.eqb f (-1.0)%float then py "-1.0"
  else py "0.5".

(** A text literal in which every apostrophe stands for a double quote
    (code point 34). *)
Definition dq (s : string) : str :=
  map (fun c => if c =? 39 then 34 else c) (py s).

(** Two response bodies whose first artifacts carry the same payload. *)
Definition body_one : list (str * pyval) :=
  [(py "result", PyStr (py "success"));
   (py "artifacts",
    PyList [PyDict [(py "seed", PyInt 0); (py "base64", PyStr (py "aGk="))]])].

Definition body_three : list (str * pyval) :=
  [(py "artifacts",
    PyList [PyDict [(py "base64", PyStr (py "aGk="))];
            PyDict [(py "base64", PyStr (py "AAAA"))];
            PyNone])].

(** ** Character classes and value shapes *)

(** The code points [encode("utf-8")] refuses. *)
Definition is_surrogate (c : N) : bool := (0xD800 <=? c) && (c <? 0xE000).

(** The bytes the base64 decoder reads: the 64 alphabet characters and the
    pad; it steps over every other byte. *)
Definition is_alphabet (c : byte) : bool := table_a2b_base64 c <? 64.

Definition is_pad (c : byte) : bool := Byte.eqb c BASE64_PAD.

Definition is_base64_char (c : byte) : bool := is_pad c || is_alphabet c.

(** How many alphabet characters a byte string holds. *)
Definition alphabet_count (data : bytes) : nat :=
  List.length (filter is_alphabet data).

(** * Properties *)

(** ** Bytes and six-bit values *)

Lemma below_spec n P :
  below n P = true -> forall k, k < N.of_nat n -> P k = true.
Proof.
  induction n as [|n IH]; intros H k Hk.
  - simpl in Hk. lia.
  - cbn [below] in H. apply andb_true_iff in H as [Hn Hrest].
    destruct (N.eq_dec k (N.of_nat n)) as [->|Hne]; [exact Hn|].
    apply IH; [exact Hrest|lia].
Qed.

Lemma byte_to_N_lt b : Byte.to_N b < 256.
Proof. pose proof (Byte.to_N_bounded b). lia. Qed.

Lemma byte_of_N_to_N b : byte_of_N (Byte.to_N b) = b.
Proof.
  unfold byte_of_N. rewrite N.mod_small by apply byte_to_N_lt.
  now rewrite Byte.of_to_N.
Qed.

(** The alphabet table and its inverse agree on the 64 six-bit values;
    no alphabet character is the pad or leaves ASCII. *)
Lemma table_a2b_b2a n : n < 64 -> table_a2b_base64 (b2a n) = n.
Proof.
  intros Hn.
  apply N.eqb_eq.
  revert n Hn.
  apply (below_spec 64 (fun n => table_a2b_base64 (b2a n) =? n)).
  vm_compute. reflexivity.
Qed.

Lemma b2a_not_pad n : n < 64 -> Byte.eqb (b2a n) BASE64_PAD = false.
Proof.
  intros Hn.
  apply negb_true_iff.
  revert n Hn.
  apply (below_spec 64 (fun n => negb (Byte.eqb (b2a n) BASE64_PAD))).
  vm_compute. reflexivity.
Qed.

Lemma b2a_ascii n : n < 64 -> Byte.to_N (b2a n) < 128.
Proof.
  intros Hn.
  apply N.ltb_lt.
  revert n Hn.
  apply (below_spec 64 (fun n => Byte.to_N (b2a n) <? 128)).
  vm_compute. reflexivity.
Qed.

Lemma bytes_check1 (P : N -> bool) :
  below 256 P = true -> forall b : byte, P (Byte.to_N b) = true.
Proof.
  intros H b. apply (below_spec 256 P H). apply byte_to_N_lt.
Qed.

Lemma bytes_check2 (P : N -> N -> bool) :
  below 256 (fun a => below 256 (P a)) = true ->
  forall a b : byte, P (Byte.to_N a) (Byte.to_N b) = true.
Proof.
  intros H a b.
  apply (below_spec 256 (P (Byte.to_N a))); [|apply byte_to_N_lt].
  apply (below_spec 256 (fun a => below 256 (P a)) H). apply byte_to_N_lt.
Qed.

(** The four six-bit values cut from a group of three bytes. *)
Lemma sextet0_lt b0 : N.shiftr (Byte.to_N b0) 2 < 64.
Proof.
  apply N.ltb_lt.
  apply (bytes_check1 (fun n0 => N.shiftr n0 2 <? 64)).
  vm_compute. reflexivity.
Qed.

Lemma sextet1_lt b0 b1 :
  N.lor (N.shiftl (N.land (Byte.to_N b0) 3) 4) (N.shiftr (Byte.to_N b1) 4) < 64.
Proof.
  apply N.ltb_lt.
  apply (bytes_check2
           (fun n0 n1 => N.lor (N.shiftl (N.land n0 3) 4) (N.shiftr n1 4) <? 64)).
  vm_compute. reflexivity.
Qed.

Lemma sextet1_last_lt b0 : N.shiftl (N.land (Byte.to_N b0) 3) 4 < 64.
Proof.
  apply N.ltb_lt.
  apply (bytes_check1 (fun n0 => N.shiftl (N.land n0 3) 4 <? 64)).
  vm_compute. reflexivity.
Qed.

Lemma sextet2_lt b1 b2 :
  N.lor (N.shiftl (N.land (Byte.to_N b1) 0xf) 2) (N.shiftr (Byte.to_N b2) 6) < 64.
Proof.
  apply N.ltb_lt.
  apply (bytes_check2
           (fun n1 n2 => N.lor (N.shiftl (N.land n1 0xf) 2) (N.shiftr n2 6) <? 64)).
  vm_compute. reflexivity.
Qed.

Lemma sextet2_last_lt b1 : N.shiftl (N.land (Byte.to_N b1) 0xf) 2 < 64.
Proof.
  apply N.ltb_lt.
  apply (bytes_check1 (fun n1 => N.shiftl (N.land n1 0xf) 2 <? 64)).
  vm_compute. reflexivity.
Qed.

Lemma sextet3_lt b2 : N.land (Byte.to_N b2) 0x3f < 64.
Proof.
  apply N.ltb_lt.
  apply (bytes_check1 (fun n2 => N.land n2 0x3f <? 64)).
  vm_compute. reflexivity.
Qed.

(** What the decoder rebuilds from them. *)
Lemma rebuild_byte0 b0 b1 :
  N.lor (N.shiftl (N.shiftr (Byte.to_N b0) 2) 2)
        (N.shiftr (N.lor (N.shiftl (N.land (Byte.to_N b0) 3) 4)
                         (N.shiftr (Byte.to_N b1) 4)) 4)
  = Byte.to_N b0.
Proof.
  apply N.eqb_eq.
  apply (bytes_check2
           (fun n0 n1 =>
              N.lor (N.shiftl (N.shiftr n0 2) 2)
                    (N.shiftr (N.lor (N.shiftl (N.land n0 3) 4) (N.shiftr n1 4)) 4)
              =? n0)).
  vm_compute. reflexivity.
Qed.

Lemma rebuild_byte0_last b0 :
  N.lor (N.shiftl (N.shiftr (Byte.to_N b0) 2) 2)
        (N.shiftr (N.shiftl (N.land (Byte.to_N b0) 3) 4) 4)
  = Byte.to_N b0.
Proof.
  apply N.eqb_eq.
  apply (bytes_check1
           (fun n0 =>
              N.lor (N.shiftl (N.shiftr n0 2) 2)
                    (N.shiftr (N.shiftl (N.land n0 3) 4) 4)
              =? n0)).
  vm_compute. reflexivity.
Qed.

Lemma leftchar1 b0 b1 :
  N.land (N.lor (N.shiftl (N.land (Byte.to_N b0) 3) 4) (N.shiftr (Byte.to_N b1) 4))
         0x0f
  = N.shiftr (Byte.to_N b1) 4.
Proof.
  apply N.eqb_eq.
  apply (bytes_check2
           (fun n0 n1 =>
              N.land (N.lor (N.shiftl (N.land n0 3) 4) (N.shiftr n1 4)) 0x0f
              =? N.shiftr n1 4)).
  vm_compute. reflexivity.
Qed.

Lemma rebuild_byte1 b1 b2 :
  N.lor (N.shiftl (N.shiftr (Byte.to_N b1) 4) 4)
        (N.shiftr (N.lor (N.shiftl (N.land (Byte.to_N b1) 0xf) 2)
                         (N.shiftr (Byte.to_N b2) 6)) 2)
  = Byte.to_N b1.
Proof.
  apply N.eqb_eq.
  apply (bytes_check2
           (fun n1 n2 =>
              N.lor (N.shiftl (N.shiftr n1 4) 4)
                    (N.shiftr (N.lor (N.shiftl (N.land n1 0xf) 2) (N.shiftr n2 6)) 2)
              =? n1)).
  vm_compute. reflexivity.
Qed.

Lemma rebuild_byte1_last b1 :
  N.lor (N.shiftl (N.shiftr (Byte.to_N b1) 4) 4)
        (N.shiftr (N.shiftl (N.land (Byte.to_N b1) 0xf) 2) 2)
  = Byte.to_N b1.
Proof.
  apply N.eqb_eq.
  apply (bytes_check1
           (fun n1 =>
              N.lor (N.shiftl (N.shiftr n1 4) 4)
                    (N.shiftr (N.shiftl (N.land n1 0xf) 2) 2)
              =? n1)).
  vm_compute. reflexivity.
Qed.

Lemma leftchar2 b1 b2 :
  N.land (N.lor (N.shiftl (N.land (Byte.to_N b1) 0xf) 2) (N.shiftr (Byte.to_N b2) 6))
         0x03
  = N.shiftr (Byte.to_N b2) 6.
Proof.
  apply N.eqb_eq.
  apply (bytes_check2
           (fun n1 n2 =>
              N.land (N.lor (N.shiftl (N.land n1 0xf) 2) (N.shiftr n2 6)) 0x03
              =? N.shiftr n2 6)).
  vm_compute. reflexivity.
Qed.

Lemma rebuild_byte2 b2 :
  N.lor (N.shiftl (N.shiftr (Byte.to_N b2) 6) 6) (N.land (Byte.to_N b2) 0x3f)
  = Byte.to_N b2.
Proof.
  apply N.eqb_eq.
  apply (bytes_check1
           (fun n2 => N.lor (N.shiftl (N.shiftr n2 6) 6) (N.land n2 0x3f) =? n2)).
  vm_compute. reflexivity.
Qed.

(** ** The codecs on known vectors *)

Example b64encode_foobar :
  map b64encode (map ascii_bytes ["f"; "fo"; "foo"; "foobar"]%string)
  = map ascii_bytes ["Zg=="; "Zm8="; "Zm9v"; "Zm9vYmFy"]%string.
Proof. reflexivity. Qed.

Example b64decode_skips_and_stops :
  b64decode (py "Zm9v YmE=junk") = Ok (ascii_bytes "fooba").
Proof. reflexivity. Qed.

Example b64decode_incorrect_padding :
  b64decode (py "Zm8") = Raise (binascii_Error (py "Incorrect padding")).
Proof. reflexivity. Qed.

Example utf8_euro_sign :
  encode_utf8 [0x20AC] = Ok [xe2; x82; xac]
  /\ decode_utf8 [xe2; x82; xac] = Ok [0x20AC]
  /\ encode_utf8 [0xD800] = Raise UnicodeEncodeError
  /\ decode_utf8 [xc0; x80] = Raise UnicodeDecodeError.
Proof. repeat split. Qed.

Example escape_non_ascii :
  encode_basestring_ascii [0xE9; 10; 0x1F600]
  = [34] ++ py "\u00e9\n\ud83d\ude00" ++ [34].
Proof. reflexivity. Qed.

(** ** Decoding what the encoder wrote *)

(** Induction over a list three elements at a time, the way the encoder
    consumes its input. *)
Lemma list_ind_triples (A : Type) (P : list A -> Prop) :
  P [] ->
  (forall a, P [a]) ->
  (forall a b, P [a; b]) ->
  (forall a b c l, P l -> P (a :: b :: c :: l)) ->
  forall l, P l.
Proof.
  intros Hnil Hone Htwo Hstep.
  fix IH 1.
  intros [|a [|b [|c l]]].
  - exact Hnil.
  - apply Hone.
  - apply Htwo.
  - apply Hstep, IH.
Qed.

(** One alphabet character through the decoding loop. *)
Lemma a2b_loop_alphabet n rest quad_pos leftchar pads bin_data :
  n < 64 ->
  a2b_loop (b2a n :: rest) quad_pos leftchar pads bin_data
  = match quad_pos with
    | 0 => a2b_loop rest 1 n 0 bin_data
    | 1 =>
        a2b_loop rest 2 (N.land n 0x0f) 0
          (bin_data ++ [byte_of_N (N.lor (N.shiftl leftchar 2) (N.shiftr n 4))])
    | 2 =>
        a2b_loop rest 3 (N.land n 0x03) 0
          (bin_data ++ [byte_of_N (N.lor (N.shiftl leftchar 4) (N.shiftr n 2))])
    | _ =>
        a2b_loop rest 0 0 0
          (bin_data ++ [byte_of_N (N.lor (N.shiftl leftchar 6) n)])
    end.
Proof.
  intros Hn. cbn [a2b_loop].
  rewrite b2a_not_pad, table_a2b_b2a by exact Hn.
  cbv zeta.
  destruct (64 <=? n) eqn:E; [apply N.leb_le in E; lia|].
  reflexivity.
Qed.

(** A full group of three bytes comes back and leaves the loop between
    quads. *)
Lemma a2b_loop_group b0 b1 b2 rest leftchar pads bin_data :
  a2b_loop (b2a_base64 (b0 :: b1 :: b2 :: rest)) 0 leftchar pads bin_data
  = a2b_loop (b2a_base64 rest) 0 0 0 (bin_data ++ [b0; b1; b2]).
Proof.
  cbn [b2a_base64]. cbv zeta.
  rewrite a2b_loop_alphabet by apply sextet0_lt. cbv match.
  rewrite a2b_loop_alphabet by apply sextet1_lt. cbv match.
  rewrite rebuild_byte0, leftchar1, byte_of_N_to_N.
  rewrite a2b_loop_alphabet by apply sextet2_lt. cbv match.
  rewrite rebuild_byte1, leftchar2, byte_of_N_to_N.
  rewrite a2b_loop_alphabet by apply sextet3_lt. cbv match.
  rewrite rebuild_byte2, byte_of_N_to_N.
  now rewrite <- !app_assoc.
Qed.

Lemma a2b_loop_last1 b0 leftchar pads bin_data :
  a2b_loop (b2a_base64 [b0]) 0 leftchar pads bin_data = Ok (bin_data ++ [b0]).
Proof.
  cbn [b2a_base64]. cbv zeta.
  rewrite a2b_loop_alphabet by apply sextet0_lt. cbv match.
  rewrite a2b_loop_alphabet by apply sextet1_last_lt. cbv match.
  rewrite rebuild_byte0_last, byte_of_N_to_N.
  reflexivity.
Qed.

Lemma a2b_loop_last2 b0 b1 leftchar pads bin_data :
  a2b_loop (b2a_base64 [b0; b1]) 0 leftchar pads bin_data
  = Ok (bin_data ++ [b0; b1]).
Proof.
  cbn [b2a_base64]. cbv zeta.
  rewrite a2b_loop_alphabet by apply sextet0_lt. cbv match.
  rewrite a2b_loop_alphabet by apply sextet1_lt. cbv match.
  rewrite rebuild_byte0, leftchar1, byte_of_N_to_N.
  rewrite a2b_loop_alphabet by apply sextet2_last_lt. cbv match.
  rewrite rebuild_byte1_last, byte_of_N_to_N.
  cbn [a2b_loop]. cbn. now rewrite <- app_assoc.
Qed.

Lemma a2b_loop_b2a_base64 bin :
  forall leftchar pads bin_data,
    a2b_loop (b2a_base64 bin) 0 leftchar pads bin_data = Ok (bin_data ++ bin).
Proof.
  induction bin as [|b0|b0 b1|b0 b1 b2 rest IH] using list_ind_triples;
    intros leftchar pads bin_data.
  - cbn. now rewrite app_nil_r.
  - apply a2b_loop_last1.
  - apply a2b_loop_last2.
  - rewrite a2b_loop_group, IH. now rewrite <- app_assoc.
Qed.

(** [binascii.a2b_base64] inverts [binascii.b2a_base64] on every input. *)
Lemma a2b_base64_b2a_base64 bin : a2b_base64 (b2a_base64 bin) = Ok bin.
Proof. unfold a2b_base64. now rewrite a2b_loop_b2a_base64. Qed.

(** The encoder writes ASCII only. *)
Lemma b2a_base64_ascii bin :
  Forall (fun b => Byte.to_N b < 128) (b2a_base64 bin).
Proof.
  assert (Hpad : Byte.to_N BASE64_PAD < 128) by (vm_compute; reflexivity).
  induction bin as [|b0|b0 b1|b0 b1 b2 rest IH] using list_ind_triples;
    cbn [b2a_base64]; cbv zeta.
  - constructor.
  - repeat constructor; try exact Hpad.
    + apply b2a_ascii, sextet0_lt.
    + apply b2a_ascii, sextet1_last_lt.
  - repeat constructor; try exact Hpad.
    + apply b2a_ascii, sextet0_lt.
    + apply b2a_ascii, sextet1_lt.
    + apply b2a_ascii, sextet2_last_lt.
  - repeat (constructor; [apply b2a_ascii|]).
    + apply sextet0_lt.
    + apply sextet1_lt.
    + apply sextet2_lt.
    + apply sextet3_lt.
    + exact IH.
Qed.

(** ASCII bytes decode as UTF-8 to their own code points, and come back
    under [encode("ascii")]. *)
Lemma decode_utf8_ascii bs :
  Forall (fun b => Byte.to_N b < 128) bs ->
  decode_utf8 bs = Ok (map Byte.to_N bs).
Proof.
  induction 1 as [|b bs Hb _ IH].
  - reflexivity.
  - cbn [decode_utf8]. cbv zeta.
    apply N.ltb_lt in Hb. rewrite Hb, IH. reflexivity.
Qed.

Lemma encode_ascii_ascii bs :
  Forall (fun b => Byte.to_N b < 128) bs ->
  encode_ascii (map Byte.to_N bs) = Ok bs.
Proof.
  intros H. unfold encode_ascii.
  assert (Hall : all_ascii (map Byte.to_N bs) = true).
  { unfold all_ascii. induction H as [|b bs Hb _ IH]; cbn.
    - reflexivity.
    - apply N.ltb_lt in Hb. now rewrite Hb. }
  rewrite Hall. f_equal.
  rewrite map_map.
  transitivity (map (fun b : byte => b) bs); [|apply map_id].
  apply map_ext. intros b. apply byte_of_N_to_N.
Qed.


(** ** Request assembly *)

Lemma request_text_prompts_sd_request_dict p ns b64 :
  request_text_prompts (sd_request_dict p ns b64) = Some (text_prompts p ns).
Proof. reflexivity. Qed.

(** C1. The assembled request's [text_prompts] list for the notebook's
    prompt and its four negative prompts has exactly five entries, the
    positive prompt with weight 1.0 first and the negative prompts with
    weight -1.0 after it in input order; for every prompt [p] and every list
    [ns] of negative prompts the list is [(p, 1.0)] followed by the terms
    [(ns[i], -1.0)] in input order, of length [length ns + 1]. *)
Theorem text_prompts_layout :
  (forall b64,
     request_text_prompts
       (sd_request_dict (PyStr change_prompt) (map PyStr negative_prompts) b64)
     = Some [ PyDict [(py "text", PyStr (py "add floral prints to dress"));
                      (py "weight", PyFloat 1.0%float)];
              PyDict [(py "text", PyStr (py "poorly rendered"));
                      (py "weight", PyFloat (-1.0)%float)];
              PyDict [(py "text", PyStr (py "low quality"));
                      (py "weight", PyFloat (-1.0)%float)];
              PyDict [(py "text", PyStr (py "disfigured"));
                      (py "weight", PyFloat (-1.0)%float)];
              PyDict [(py "text", PyStr (py "disproportional"));
                      (py "weight", PyFloat (-1.0)%float)] ])
  /\
  (forall (p : str) (ns : list str) (b64 : pyval),
     exists l,
       request_text_prompts (sd_request_dict (PyStr p) (map PyStr ns) b64) = Some l
       /\ List.length l = S (List.length ns)
       /\ hd_error l
          = Some (PyDict [(py "text", PyStr p); (py "weight", PyFloat 1.0%float)])
       /\ tl l
          = map (fun n => PyDict [(py "text", PyStr n);
                                  (py "weight", PyFloat (-1.0)%float)]) ns
       /\ (forall i n, nth_error ns i = Some n ->
             nth_error l (S i)
             = Some (PyDict [(py "text", PyStr n);
                             (py "weight", PyFloat (-1.0)%float)]))).
Proof.
  split.
  - intros b64. reflexivity.
  - intros p ns b64. exists (text_prompts (PyStr p) (map PyStr ns)).
    split; [apply request_text_prompts_sd_request_dict|].
    unfold text_prompts, prompt_term.
    cbn [app hd_error tl List.length nth_error].
    rewrite map_map, length_map.
    repeat split.
    intros i n Hi.
    exact (map_nth_error
             (fun n => PyDict [(py "text", PyStr n);
                               (py "weight", PyFloat (-1.0)%float)]) i ns Hi).
Qed.

(** ** Image conversion *)

Section ConversionProperties.

Variable Image_save_png : Image -> result bytes.
Variable Image_resize : Image -> N * N -> Image.
Variable fs : filesystem.

Lemma decode_utf8_b64encode data :
  decode_utf8 (b64encode data) = Ok (ascii_text (b64encode data)).
Proof. apply decode_utf8_ascii, b2a_base64_ascii. Qed.

(** On an existing file the conversion is the read followed by the
    encoding: it fails exactly as the read fails. *)
Lemma image_to_base64_existing path :
  os_path_isfile fs path = true ->
  image_to_base64 Image_save_png fs (PyStr path)
  = data <- open_rb_read fs path ;; Ok (ascii_text (b64encode data)).
Proof.
  intros Hfile. cbn [image_to_base64]. rewrite Hfile.
  destruct (open_rb_read fs path) as [data|e]; cbn [bind]; [|reflexivity].
  apply decode_utf8_b64encode.
Qed.

Lemma image_to_base64_regular_file path content :
  fs path = Some (RegularFile content) ->
  image_to_base64 Image_save_png fs (PyStr path)
  = Ok (ascii_text (b64encode content)).
Proof.
  intros Hfile. unfold image_to_base64, os_path_isfile, open_rb_read.
  rewrite Hfile. cbn [bind]. apply decode_utf8_b64encode.
Qed.

Lemma image_to_base64_image im png :
  Image_save_png im = Ok png ->
  image_to_base64 Image_save_png fs (PyImage im)
  = Ok (ascii_text (b64encode png)).
Proof.
  intros Hsave. cbn [image_to_base64]. rewrite Hsave. cbn [bind].
  apply decode_utf8_b64encode.
Qed.

Lemma image_to_base64_missing path :
  os_path_isfile fs path = false ->
  image_to_base64 Image_save_png fs (PyStr path)
  = Raise (FileNotFoundError (py "File " ++ path ++ py " does not exist")).
Proof. intros Hno. unfold image_to_base64. now rewrite Hno. Qed.


(** C5. For a string that is not the path of an existing file the
    conversion raises [FileNotFoundError] and returns no value. *)
Theorem image_to_base64_not_found path :
  os_path_isfile fs path = false ->
  image_to_base64 Image_save_png fs (PyStr path)
  = Raise (FileNotFoundError (py "File " ++ path ++ py " does not exist"))
  /\ forall s, image_to_base64 Image_save_png fs (PyStr path) <> Ok s.
Proof.
  intros Hno. rewrite (image_to_base64_missing _ Hno).
  split; [reflexivity|discriminate].
Qed.

(** C6. For an input that is neither a string nor a decoded image the
    conversion raises [ValueError], naming the type it got, and returns no
    value. *)
Theorem image_to_base64_wrong_type img :
  (forall path, img <> PyStr path) ->
  (forall im, img <> PyImage im) ->
  image_to_base64 Image_save_png fs img
  = Raise (ValueError
             (py "Expected str (filename) or PIL Image. Got " ++ type_repr img))
  /\ forall s, image_to_base64 Image_save_png fs img <> Ok s.
Proof.
  intros Hstr Himage.
  destruct img; try (split; [reflexivity|discriminate]).
  - now destruct (Hstr s).
  - now destruct (Himage im).
Qed.

(** C9. For a string that names a directory the conversion raises the
    "does not exist" [FileNotFoundError], not the wrong-type [ValueError]:
    the existence check accepts regular files only. *)
Theorem image_to_base64_directory path :
  fs path = Some Directory ->
  os_path_isfile fs path = false
  /\ image_to_base64 Image_save_png fs (PyStr path)
     = Raise (FileNotFoundError (py "File " ++ path ++ py " does not exist"))
  /\ forall msg, image_to_base64 Image_save_png fs (PyStr path)
                 <> Raise (ValueError msg).
Proof.
  intros Hdir.
  assert (Hno : os_path_isfile fs path = false)
    by (unfold os_path_isfile; now rewrite Hdir).
  rewrite (image_to_base64_missing _ Hno).
  repeat split; [exact Hno|discriminate].
Qed.


End ConversionProperties.




Lemma image_to_base64_not_found_witness :
  os_path_isfile sample_fs (py "dress.png") = false
  /\ (image_to_base64 (fun im => Ok (im_data im)) sample_fs (PyStr (py "dress.png"))
      = Raise (FileNotFoundError (py "File dress.png does not exist"))
      /\ forall s,
           image_to_base64 (fun im => Ok (im_data im)) sample_fs
             (PyStr (py "dress.png")) <> Ok s).
Proof.
  split; [reflexivity|].
  apply (@image_to_base64_not_found (fun im => Ok (im_data im)) sample_fs
           (py "dress.png")).
  reflexivity.
Defined.

Lemma image_to_base64_wrong_type_witness :
  (forall path, PyInt 42 <> PyStr path)
  /\ (forall im, PyInt 42 <> PyImage im)
  /\ (image_to_base64 (fun im => Ok (im_data im)) sample_fs (PyInt 42)
      = Raise (ValueError
                 (py "Expected str (filename) or PIL Image. Got <class 'int'>"))
      /\ forall s,
           image_to_base64 (fun im => Ok (im_data im)) sample_fs (PyInt 42) <> Ok s).
Proof.
  split; [discriminate|]. split; [discriminate|].
  apply (@image_to_base64_wrong_type (fun im => Ok (im_data im)) sample_fs
           (PyInt 42)); discriminate.
Defined.

Lemma image_to_base64_directory_witness :
  sample_fs (py "images") = Some Directory
  /\ (os_path_isfile sample_fs (py "images") = false
      /\ image_to_base64 (fun im => Ok (im_data im)) sample_fs (PyStr (py "images"))
         = Raise (FileNotFoundError (py "File images does not exist"))
      /\ forall msg,
           image_to_base64 (fun im => Ok (im_data im)) sample_fs
             (PyStr (py "images")) <> Raise (ValueError msg)).
Proof.
  split; [reflexivity|].
  apply (@image_to_base64_directory (fun im => Ok (im_data im)) sample_fs
           (py "images")).
  reflexivity.
Defined.


(** ** Response decoding *)

Section DecodingProperties.

Variable Image_open : bytes -> result Image.

Lemma genimage_b64_str_first d first others :
  dict_lookup d (py "artifacts") = Some (PyList (first :: others)) ->
  genimage_b64_str (PyDict d) = method_get first (py "base64").
Proof.
  intros Hart. unfold genimage_b64_str, getitem_str.
  rewrite Hart. reflexivity.
Qed.

(** C4. A response whose artifacts list is empty makes decoding raise
    [IndexError]; no image, placeholder or fallback, comes out. *)
Theorem decode_response_empty_artifacts d :
  dict_lookup d (py "artifacts") = Some (PyList []) ->
  decode_response Image_open (PyDict d)
  = Raise (IndexError (py "list index out of range"))
  /\ forall im, decode_response Image_open (PyDict d) <> Ok im.
Proof.
  intros Hart.
  assert (H : decode_response Image_open (PyDict d)
              = Raise (IndexError (py "list index out of range"))).
  { unfold decode_response, genimage_b64_str, getitem_str.
    rewrite Hart. reflexivity. }
  rewrite H. split; [reflexivity|discriminate].
Qed.

(** C7. Decoding reads the first artifact only: two responses whose
    first artifacts agree on the [base64] field decode to the same
    result, whatever else their artifacts lists hold. *)
Theorem decode_response_first_artifact_only d1 d2 first1 first2 others1 others2 :
  dict_lookup d1 (py "artifacts") = Some (PyList (first1 :: others1)) ->
  dict_lookup d2 (py "artifacts") = Some (PyList (first2 :: others2)) ->
  method_get first1 (py "base64") = method_get first2 (py "base64") ->
  decode_response Image_open (PyDict d1) = decode_response Image_open (PyDict d2).
Proof.
  intros H1 H2 Hsame. unfold decode_response.
  rewrite (genimage_b64_str_first _ H1), (genimage_b64_str_first _ H2).
  now rewrite Hsame.
Qed.

(** C10. When the artifacts list is not empty and its first artifact has
    no [base64] key, the extraction raises nothing and yields [None]; the
    failure comes after it, from [bytes(None, "utf-8")], and is a
    [TypeError], not an [IndexError] or [KeyError]. *)
Theorem decode_response_missing_base64 d artifact others :
  dict_lookup d (py "artifacts") = Some (PyList (PyDict artifact :: others)) ->
  dict_lookup artifact (py "base64") = None ->
  genimage_b64_str (PyDict d) = Ok PyNone
  /\ bytes_of PyNone = Raise (TypeError (py "encoding without a string argument"))
  /\ decode_response Image_open (PyDict d)
     = Raise (TypeError (py "encoding without a string argument")).
Proof.
  intros Hart Hmiss.
  assert (Hget : genimage_b64_str (PyDict d) = Ok PyNone).
  { rewrite (genimage_b64_str_first _ Hart). cbn [method_get].
    now rewrite Hmiss. }
  split; [exact Hget|]. split; [reflexivity|].
  unfold decode_response. rewrite Hget. reflexivity.
Qed.

End DecodingProperties.

Lemma decode_response_empty_artifacts_witness :
  dict_lookup [(py "artifacts", PyList [])] (py "artifacts") = Some (PyList [])
  /\ (decode_response (fun data => Ok (mkImage (1, 1) data))
        (PyDict [(py "artifacts", PyList [])])
      = Raise (IndexError (py "list index out of range"))
      /\ forall im,
           decode_response (fun data => Ok (mkImage (1, 1) data))
             (PyDict [(py "artifacts", PyList [])]) <> Ok im).
Proof.
  split; [reflexivity|].
  apply (@decode_response_empty_artifacts
           (fun data => Ok (mkImage (1, 1) data))
           [(py "artifacts", PyList [])]).
  reflexivity.
Defined.

Lemma decode_response_first_artifact_only_witness :
  dict_lookup body_one (py "artifacts")
  = Some (PyList [PyDict [(py "seed", PyInt 0); (py "base64", PyStr (py "aGk="))]])
  /\ dict_lookup body_three (py "artifacts")
     = Some (PyList [PyDict [(py "base64", PyStr (py "aGk="))];
                     PyDict [(py "base64", PyStr (py "AAAA"))];
                     PyNone])
  /\ method_get (PyDict [(py "seed", PyInt 0); (py "base64", PyStr (py "aGk="))])
       (py "base64")
     = method_get (PyDict [(py "base64", PyStr (py "aGk="))]) (py "base64")
  /\ decode_response (fun data => Ok (mkImage (1, 1) data)) (PyDict body_one)
     = decode_response (fun data => Ok (mkImage (1, 1) data)) (PyDict body_three).
Proof.
  split; [reflexivity|]. split; [reflexivity|]. split; [reflexivity|].
  apply (@decode_response_first_artifact_only
           (fun data => Ok (mkImage (1, 1) data)) body_one body_three
           (PyDict [(py "seed", PyInt 0); (py "base64", PyStr (py "aGk="))])
           (PyDict [(py "base64", PyStr (py "aGk="))])
           []
           [PyDict [(py "base64", PyStr (py "AAAA"))]; PyNone]);
    reflexivity.
Defined.

Lemma decode_response_missing_base64_witness :
  dict_lookup [(py "artifacts", PyList [PyDict [(py "seed", PyInt 0)]])]
    (py "artifacts")
  = Some (PyList [PyDict [(py "seed", PyInt 0)]])
  /\ dict_lookup [(py "seed", PyInt 0)] (py "base64") = None
  /\ (genimage_b64_str
        (PyDict [(py "artifacts", PyList [PyDict [(py "seed", PyInt 0)]])])
      = Ok PyNone
      /\ bytes_of PyNone
         = Raise (TypeError (py "encoding without a string argument"))
      /\ decode_response (fun data => Ok (mkImage (1, 1) data))
           (PyDict [(py "artifacts", PyList [PyDict [(py "seed", PyInt 0)]])])
         = Raise (TypeError (py "encoding without a string argument"))).
Proof.
  split; [reflexivity|]. split; [reflexivity|].
  apply (@decode_response_missing_base64
           (fun data => Ok (mkImage (1, 1) data))
           [(py "artifacts", PyList [PyDict [(py "seed", PyInt 0)]])]
           [(py "seed", PyInt 0)] []);
    reflexivity.
Defined.

(** ** Serialization *)

Section SerializationProperties.

Variable float_repr : float -> str.

Lemma json_dumps_list l :
  json_dumps float_repr (PyList l)
  = items <- dumps_list float_repr l ;; Ok (json_array items).
Proof. reflexivity. Qed.

Lemma json_dumps_dict d :
  json_dumps float_repr (PyDict d)
  = items <- dumps_dict float_repr d ;; Ok (json_object items).
Proof. reflexivity. Qed.

Lemma json_dumps_prompt_term t w :
  json_dumps float_repr (prompt_term (PyStr t) w)
  = Ok (prompt_term_text float_repr t w).
Proof. reflexivity. Qed.

Lemma dumps_list_prompt_terms w ns :
  dumps_list float_repr (map (fun n => prompt_term n w) (map PyStr ns))
  = Ok (map (fun n => prompt_term_text float_repr n w) ns).
Proof.
  induction ns as [|n ns IH].
  - reflexivity.
  - cbn [map dumps_list]. rewrite json_dumps_prompt_term, IH. reflexivity.
Qed.

(** What [json.dumps] writes for the request. *)
Lemma sd_request_serialized p ns b64 :
  sd_request float_repr p ns b64 = Ok (sd_request_text float_repr p ns b64).
Proof.
  unfold sd_request, sd_request_dict, text_prompts.
  rewrite json_dumps_dict. cbn [dumps_dict app].
  rewrite json_dumps_list. cbn [dumps_list].
  rewrite json_dumps_prompt_term, dumps_list_prompt_terms.
  reflexivity.
Qed.

Lemma prompt_term_text_written t w :
  prompt_term_text float_repr t w
  = dq "{'text': " ++ encode_basestring_ascii t
    ++ dq ", 'weight': " ++ floatstr float_repr w ++ dq "}".
Proof.
  unfold prompt_term_text, json_object, json_pair. cbn [join].
  rewrite <- !app_assoc. reflexivity.
Qed.

Lemma str_eqb_eq a b : str_eqb a b = true <-> a = b.
Proof.
  unfold str_eqb. destruct (list_eq_dec N.eq_dec a b); split;
    congruence.
Qed.

Lemma dict_lookup_store_name_same globals name v :
  dict_lookup (store_name globals name v) name = Some v.
Proof.
  induction globals as [|[k x] rest IH]; cbn [store_name dict_lookup].
  - now rewrite (proj2 (str_eqb_eq name name) eq_refl).
  - destruct (str_eqb k name) eqn:Hk; cbn [dict_lookup]; rewrite Hk;
      [reflexivity|exact IH].
Qed.

Lemma dict_lookup_store_name_other globals name v other :
  other <> name ->
  dict_lookup (store_name globals name v) other = dict_lookup globals other.
Proof.
  intros Hother.
  induction globals as [|[k x] rest IH]; cbn [store_name dict_lookup].
  - destruct (str_eqb name other) eqn:Hk; [|reflexivity].
    apply str_eqb_eq in Hk. congruence.
  - destruct (str_eqb k name) eqn:Hk; cbn [dict_lookup].
    + destruct (str_eqb k other) eqn:Hko; [|reflexivity].
      apply str_eqb_eq in Hk. apply str_eqb_eq in Hko. congruence.
    + destruct (str_eqb k other); [reflexivity|exact IH].
Qed.

(** C8. Request assembly is total, pure and determined by its inputs. With
    the prompt, the list of negative prompts and the image string bound to
    strings in the notebook, the cell raises nothing and binds [sd_request]
    to the JSON text written out below (apostrophes standing for double
    quotes), which depends on the three inputs only; the expression
    [sd_request] yields the same text. Nothing else changes: the file
    system and every other global name, the three inputs among them, are as
    before. *)
Theorem sd_request_total_and_pure nb p ns b64 :
  dict_lookup (nb_globals nb) (py "change_prompt") = Some (PyStr p) ->
  dict_lookup (nb_globals nb) (py "negative_prompts")
  = Some (PyList (map PyStr ns)) ->
  dict_lookup (nb_globals nb) (py "init_image_b64") = Some (PyStr b64) ->
  exists body nb',
    body
    = dq "{'text_prompts': ["
      ++ join (py ", ")
           ((dq "{'text': " ++ encode_basestring_ascii p
             ++ dq ", 'weight': " ++ float_repr 1.0%float ++ dq "}")
            :: map (fun n =>
                      dq "{'text': " ++ encode_basestring_ascii n
                      ++ dq ", 'weight': " ++ float_repr (-1.0)%float ++ dq "}")
                 ns)
      ++ dq "], 'cfg_scale': 10, 'init_image': " ++ encode_basestring_ascii b64
      ++ dq ", 'seed': 0, 'start_schedule': " ++ float_repr 0.5%float
      ++ dq ", 'steps': 30, 'style_preset': 'photographic', 'image_strength': "
      ++ float_repr 0.5%float
      ++ dq ", 'denoising_strength': " ++ float_repr 0.5%float ++ dq "}"
    /\ sd_request float_repr p ns b64 = Ok body
    /\ sd_request_cell float_repr nb = Ok nb'
    /\ dict_lookup (nb_globals nb') (py "sd_request") = Some (PyStr body)
    /\ nb_fs nb' = nb_fs nb
    /\ (forall name,
          name <> py "sd_request" ->
          dict_lookup (nb_globals nb') name = dict_lookup (nb_globals nb) name).
Proof.
  intros Hprompt Hnegative Himage.
  exists (sd_request_text float_repr p ns b64).
  exists {| nb_fs := nb_fs nb;
            nb_globals :=
              store_name (nb_globals nb) (py "sd_request")
                (PyStr (sd_request_text float_repr p ns b64)) |}.
  split.
  { unfold sd_request_text.
    rewrite prompt_term_text_written.
    rewrite (map_ext _ _ (fun n => prompt_term_text_written n (-1.0)%float)).
    unfold json_object, json_pair, json_array.
    match goal with
    | |- context [join ?sep (?t :: map ?f ns)] =>
        set (terms := join sep (t :: map f ns))
    end.
    cbn [join]. rewrite <- !app_assoc. reflexivity. }
  split; [apply sd_request_serialized|].
  split.
  { unfold sd_request_cell, load_name.
    rewrite Hprompt, Hnegative, Himage. cbn [bind iterate].
    fold (sd_request float_repr p ns b64).
    now rewrite sd_request_serialized. }
  cbn [nb_globals nb_fs].
  split; [apply dict_lookup_store_name_same|].
  split; [reflexivity|].
  intros name Hname. now apply dict_lookup_store_name_other.
Qed.

End SerializationProperties.

Lemma sd_request_total_and_pure_witness :
  dict_lookup (nb_globals sample_notebook) (py "change_prompt")
  = Some (PyStr change_prompt)
  /\ dict_lookup (nb_globals sample_notebook) (py "negative_prompts")
     = Some (PyList (map PyStr negative_prompts))
  /\ dict_lookup (nb_globals sample_notebook) (py "init_image_b64")
     = Some (PyStr (py "aGk="))
  /\ exists body nb',
       body
       = dq "{'text_prompts': [{'text': 'add floral prints to dress', 'weight': 1.0}, "
         ++ dq "{'text': 'poorly rendered', 'weight': -1.0}, "
         ++ dq "{'text': 'low quality', 'weight': -1.0}, "
         ++ dq "{'text': 'disfigured', 'weight': -1.0}, "
         ++ dq "{'text': 'disproportional', 'weight': -1.0}], "
         ++ dq "'cfg_scale': 10, 'init_image': 'aGk=', 'seed': 0, "
         ++ dq "'start_schedule': 0.5, 'steps': 30, "
         ++ dq "'style_preset': 'photographic', 'image_strength': 0.5, "
         ++ dq "'denoising_strength': 0.5}"
       /\ sd_request sample_float_repr change_prompt negative_prompts (py "aGk=")
          = Ok body
       /\ sd_request_cell sample_float_repr sample_notebook = Ok nb'
       /\ dict_lookup (nb_globals nb') (py "sd_request") = Some (PyStr body)
       /\ nb_fs nb' = nb_fs sample_notebook
       /\ (forall name,
             name <> py "sd_request" ->
             dict_lookup (nb_globals nb') name
             = dict_lookup (nb_globals sample_notebook) name).
Proof.
  split; [reflexivity|]. split; [reflexivity|]. split; [reflexivity|].
  exact (@sd_request_total_and_pure sample_float_repr sample_notebook
           change_prompt negative_prompts (py "aGk=") eq_refl eq_refl eq_refl).
Defined.

(** * Further properties *)

(** ** What the conversion returns, and when *)

Section ConversionInversion.

Variable Image_save_png : Image -> result bytes.
Variable fs : filesystem.

(** X1. Whenever the conversion returns a string, the input was an existing
    file path or an image PIL could write, and the string is the base64
    text of exactly those bytes: no other input yields a value. *)
Theorem image_to_base64_ok_inv img s :
  image_to_base64 Image_save_png fs img = Ok s ->
  exists data,
    input_bytes Image_save_png fs img data /\ s = ascii_text (b64encode data).
Proof.
  destruct img as [| | | |path| | | |im]; try discriminate.
  - unfold image_to_base64, os_path_isfile, open_rb_read.
    destruct (fs path) as [[content| |]|] eqn:Hfile; try discriminate.
    cbn [bind]. rewrite decode_utf8_b64encode. intros [= <-].
    exists content. split; [now constructor|reflexivity].
  - cbn [image_to_base64].
    destruct (Image_save_png im) as [png|e] eqn:Hsave; try discriminate.
    cbn [bind]. rewrite decode_utf8_b64encode. intros [= <-].
    exists png. split; [now constructor|reflexivity].
Qed.

(** X2. The conversion adds two exceptions of its own and no other
    failure: what it raises is its [FileNotFoundError] for a string that
    names no regular file, whatever reading an existing file raised (a
    [PermissionError] on a file the process may not read), whatever PIL's
    encoder raised for an image, or its [ValueError] for a value of another
    type. The base64 encoding and [decode("utf-8")] never fail in it. *)
Theorem image_to_base64_raise_inv img e :
  image_to_base64 Image_save_png fs img = Raise e ->
  (exists path,
      img = PyStr path /\ os_path_isfile fs path = false
      /\ e = FileNotFoundError (py "File " ++ path ++ py " does not exist"))
  \/ (exists path,
         img = PyStr path /\ os_path_isfile fs path = true
         /\ open_rb_read fs path = Raise e)
  \/ (exists im, img = PyImage im /\ Image_save_png im = Raise e)
  \/ ((forall path, img <> PyStr path) /\ (forall im, img <> PyImage im)
      /\ e = ValueError
               (py "Expected str (filename) or PIL Image. Got " ++ type_repr img)).
Proof.
  intros H.
  destruct img as [| | | |path| | | |im];
    try (injection H as <-; right; right; right; repeat split; discriminate).
  - destruct (os_path_isfile fs path) eqn:Hfile.
    + right. left. exists path. split; [reflexivity|]. split; [exact Hfile|].
      rewrite (image_to_base64_existing Image_save_png _ _ Hfile) in H.
      destruct (open_rb_read fs path) as [data|e']; cbn [bind] in H;
        [discriminate|now injection H as <-].
    + left. exists path.
      rewrite (image_to_base64_missing Image_save_png fs _ Hfile) in H.
      injection H as <-. auto.
  - right. right. left. exists im. split; [reflexivity|].
    cbn [image_to_base64] in H.
    destruct (Image_save_png im) as [png|e'] eqn:Hsave; cbn [bind] in H.
    + rewrite decode_utf8_b64encode in H. discriminate.
    + now injection H as <-.
Qed.

End ConversionInversion.

(** ** The base64 text and what reads it *)

Lemma image_to_base64_input Image_save_png fs img data :
  input_bytes Image_save_png fs img data ->
  image_to_base64 Image_save_png fs img = Ok (ascii_text (b64encode data)).
Proof.
  intros [path content Hfile|im png Hsave].
  - now apply image_to_base64_regular_file.
  - now apply image_to_base64_image.
Qed.

Lemma b64decode_b64encode data :
  b64decode (ascii_text (b64encode data)) = Ok data.
Proof.
  unfold b64decode, ascii_text, b64encode.
  rewrite encode_ascii_ascii by apply b2a_base64_ascii.
  apply a2b_base64_b2a_base64.
Qed.

Lemma encode_utf8_ascii bs :
  Forall (fun b => Byte.to_N b < 128) bs ->
  encode_utf8 (ascii_text bs) = Ok bs.
Proof.
  induction 1 as [|b bs Hb _ IH]; [reflexivity|].
  cbn [ascii_text map encode_utf8]. fold (ascii_text bs). rewrite IH.
  unfold utf8_encode_char. apply N.ltb_lt in Hb. rewrite Hb.
  cbn [bind app]. now rewrite byte_of_N_to_N.
Qed.

Lemma b2a_base64_length bin :
  List.length (b2a_base64 bin) = (4 * ((List.length bin + 2) / 3))%nat.
Proof.
  induction bin as [|b0|b0 b1|b0 b1 b2 rest IH] using list_ind_triples;
    try reflexivity.
  cbn [b2a_base64 List.length]. cbv zeta. cbn [List.length]. rewrite IH.
  replace (S (S (S (List.length rest))) + 2)%nat
    with (List.length rest + 2 + 1 * 3)%nat by lia.
  rewrite Nat.div_add by discriminate. lia.
Qed.

Lemma b2a_is_base64_char n : n < 64 -> is_base64_char (b2a n) = true.
Proof.
  intros Hn. unfold is_base64_char, is_alphabet.
  rewrite table_a2b_b2a by exact Hn.
  apply N.ltb_lt in Hn. rewrite Hn. apply orb_true_r.
Qed.

Lemma b2a_base64_chars bin : Forall (fun b => is_base64_char b = true) (b2a_base64 bin).
Proof.
  assert (Hpad : is_base64_char BASE64_PAD = true) by reflexivity.
  induction bin as [|b0|b0 b1|b0 b1 b2 rest IH] using list_ind_triples;
    cbn [b2a_base64]; cbv zeta.
  - constructor.
  - repeat constructor; try exact Hpad; apply b2a_is_base64_char.
    + apply sextet0_lt.
    + apply sextet1_last_lt.
  - repeat constructor; try exact Hpad; apply b2a_is_base64_char.
    + apply sextet0_lt.
    + apply sextet1_lt.
    + apply sextet2_last_lt.
  - repeat (constructor; [apply b2a_is_base64_char|]).
    + apply sextet0_lt.
    + apply sextet1_lt.
    + apply sextet2_lt.
    + apply sextet3_lt.
    + exact IH.
Qed.

(** No character the decoder reads needs a JSON escape. *)
Lemma escape_char_base64 b :
  is_base64_char b = true -> escape_char (Byte.to_N b) = [Byte.to_N b].
Proof.
  intros Hb.
  pose proof (bytes_check1
                (fun n => implb (is_base64_char (byte_of_N n))
                                (str_eqb (escape_char n) [n]))) as Hall.
  specialize (Hall ltac:(vm_compute; reflexivity) b).
  cbv beta in Hall. rewrite byte_of_N_to_N, Hb in Hall. cbn [implb] in Hall.
  unfold str_eqb in Hall.
  now destruct (list_eq_dec N.eq_dec (escape_char (Byte.to_N b)) [Byte.to_N b]).
Qed.

Lemma flat_map_escape_base64 bs :
  Forall (fun b => is_base64_char b = true) bs ->
  flat_map escape_char (ascii_text bs) = ascii_text bs.
Proof.
  induction 1 as [|b bs Hb _ IH]; [reflexivity|].
  cbn [ascii_text map flat_map]. fold (ascii_text bs).
  now rewrite IH, escape_char_base64.
Qed.

Section ConversionUse.

Variable Image_save_png : Image -> result bytes.
Variable Image_open : bytes -> result Image.
Variable fs : filesystem.

(** X3. The conversion loses nothing: two valid inputs, in whatever file
    systems and under whatever encoders, that convert to the same result
    stand for the same bytes. *)
Theorem image_to_base64_injective save' fs' img img' data data' :
  input_bytes Image_save_png fs img data ->
  input_bytes save' fs' img' data' ->
  image_to_base64 Image_save_png fs img = image_to_base64 save' fs' img' ->
  data = data'.
Proof.
  intros Hin Hin' Heq.
  rewrite (image_to_base64_input Hin), (image_to_base64_input Hin') in Heq.
  injection Heq as Heq.
  pose proof (b64decode_b64encode data) as Hd.
  rewrite Heq, b64decode_b64encode in Hd. now injection Hd.
Qed.

(** X4. The string returned for [n] input bytes has [4 * ceil(n / 3)]
    characters, each of them an alphabet character or the pad. *)
Theorem image_to_base64_size_and_alphabet img data :
  input_bytes Image_save_png fs img data ->
  exists s,
    image_to_base64 Image_save_png fs img = Ok s
    /\ List.length s = (4 * ((List.length data + 2) / 3))%nat
    /\ Forall (fun c => c < 128 /\ is_base64_char (byte_of_N c) = true) s.
Proof.
  intros Hin. exists (ascii_text (b64encode data)).
  split; [now apply image_to_base64_input|]. split.
  - unfold ascii_text. rewrite length_map. apply b2a_base64_length.
  - unfold ascii_text, b64encode. apply Forall_map.
    pose proof (b2a_base64_ascii data) as Hascii.
    pose proof (b2a_base64_chars data) as Hchars.
    rewrite Forall_forall in *. intros b Hb.
    rewrite byte_of_N_to_N. auto.
Qed.

(** X5. [json.dumps] writes the conversion's result as it is, between two
    double quotes: the base64 text needs no escape, so in the request body
    the value of ["init_image"] is the text itself (apostrophes below
    standing for double quotes). *)
Theorem image_to_base64_json_verbatim img data :
  input_bytes Image_save_png fs img data ->
  exists s,
    image_to_base64 Image_save_png fs img = Ok s
    /\ encode_basestring_ascii s = [34] ++ s ++ [34]
    /\ forall float_repr p ns,
         exists before after,
           sd_request float_repr p ns s
           = Ok (before ++ dq ", 'cfg_scale': 10, 'init_image': '" ++ s
                 ++ dq "', 'seed': 0, " ++ after).
Proof.
  intros Hin. exists (ascii_text (b64encode data)).
  assert (Henc : encode_basestring_ascii (ascii_text (b64encode data))
                 = [34] ++ ascii_text (b64encode data) ++ [34]).
  { unfold encode_basestring_ascii.
    now rewrite flat_map_escape_base64 by apply b2a_base64_chars. }
  split; [now apply image_to_base64_input|]. split; [exact Henc|].
  intros float_repr p ns. rewrite sd_request_serialized.
  unfold sd_request_text. rewrite Henc.
  set (s := ascii_text (b64encode data)).
  match goal with
  | |- context [json_pair ?k (json_array ?terms)] =>
      set (prompts := json_pair k (json_array terms))
  end.
  exists (py "{" ++ prompts).
  exists (json_pair (py "start_schedule") (floatstr float_repr 0.5%float)
          ++ py ", " ++ json_pair (py "steps") (py "30")
          ++ py ", "
          ++ json_pair (py "style_preset")
               (encode_basestring_ascii (py "photographic"))
          ++ py ", "
          ++ json_pair (py "image_strength") (floatstr float_repr 0.5%float)
          ++ py ", "
          ++ json_pair (py "denoising_strength") (floatstr float_repr 0.5%float)
          ++ py "}").
  f_equal. unfold json_object. cbn [join].
  unfold json_pair at 1 2 3. rewrite <- !app_assoc. reflexivity.
Qed.

(** X6. The rendering cell undoes the conversion: when the first artifact of a
    response carries the string the conversion returned for some bytes, the
    cell hands exactly those bytes to [Image.open]. *)
Theorem decode_response_of_conversion img data s d first others :
  input_bytes Image_save_png fs img data ->
  image_to_base64 Image_save_png fs img = Ok s ->
  dict_lookup d (py "artifacts") = Some (PyList (PyDict first :: others)) ->
  dict_lookup first (py "base64") = Some (PyStr s) ->
  decode_response Image_open (PyDict d) = Image_open data.
Proof.
  intros Hin Hs Hart Hfirst.
  rewrite (image_to_base64_input Hin) in Hs. injection Hs as <-.
  unfold decode_response.
  rewrite (genimage_b64_str_first _ Hart). cbn [method_get].
  rewrite Hfirst. cbn [bind]. unfold open_b64, bytes_of.
  rewrite encode_utf8_ascii by apply b2a_base64_ascii. cbn [bind].
  unfold decodebytes, b64encode. rewrite a2b_base64_b2a_base64.
  reflexivity.
Qed.

End ConversionUse.

(** ** The base64 decoder on arbitrary payloads *)

Lemma a2b_loop_skip c rest quad_pos leftchar pads bin_data :
  is_base64_char c = false ->
  a2b_loop (c :: rest) quad_pos leftchar pads bin_data
  = a2b_loop rest quad_pos leftchar pads bin_data.
Proof.
  unfold is_base64_char, is_pad, is_alphabet. intros H.
  apply orb_false_iff in H as [Hpad Halpha].
  cbn [a2b_loop]. rewrite Hpad. cbv zeta.
  apply N.ltb_ge in Halpha. apply N.leb_le in Halpha. now rewrite Halpha.
Qed.

Lemma a2b_loop_filter data :
  forall quad_pos leftchar pads bin_data,
    a2b_loop (filter is_base64_char data) quad_pos leftchar pads bin_data
    = a2b_loop data quad_pos leftchar pads bin_data.
Proof.
  induction data as [|c data IH]; intros quad_pos leftchar pads bin_data.
  - reflexivity.
  - cbn [filter]. destruct (is_base64_char c) eqn:Hc.
    + cbn [a2b_loop]. cbv zeta.
      repeat match goal with
             | |- context [if ?b then _ else _] => destruct b
             | |- context [match ?q with N0 => _ | Npos _ => _ end] => destruct q
             | |- context [match ?q with xH => _ | xO _ => _ | xI _ => _ end] =>
                 destruct q
             end; auto.
    + rewrite a2b_loop_skip by exact Hc. apply IH.
Qed.

(** X7. The decoder reads alphabet characters and pads only: two payloads
    that differ in other bytes alone (line breaks, blanks, bytes above 127)
    decode to the same result. *)
Theorem decodebytes_other_bytes_ignored data data' :
  filter is_base64_char data = filter is_base64_char data' ->
  decodebytes data = decodebytes data'.
Proof.
  intros Hsame. unfold decodebytes, a2b_base64.
  now rewrite <- (a2b_loop_filter data), <- (a2b_loop_filter data'), Hsame.
Qed.

Lemma decodebytes_other_bytes_ignored_witness :
  filter is_base64_char (ascii_bytes "Zm9v YmFy")
  = filter is_base64_char (ascii_bytes "Zm9vYmFy")
  /\ decodebytes (ascii_bytes "Zm9v YmFy") = decodebytes (ascii_bytes "Zm9vYmFy").
Proof.
  split; [reflexivity|].
  apply (@decodebytes_other_bytes_ignored
           (ascii_bytes "Zm9v YmFy") (ascii_bytes "Zm9vYmFy")).
  reflexivity.
Defined.

(** Without pads in the input the loop ends between quads exactly when
    the alphabet characters read, added to the position it started at, come
    to a multiple of four. *)
Lemma a2b_loop_no_pad data :
  forallb (fun c => negb (is_pad c)) data = true ->
  forall quad_pos leftchar pads bin_data,
    quad_pos < 4 ->
    if ((N.to_nat quad_pos + alphabet_count data) mod 4 =? 0)%nat
    then exists raw, a2b_loop data quad_pos leftchar pads bin_data = Ok raw
    else exists msg,
        a2b_loop data quad_pos leftchar pads bin_data = Raise (binascii_Error msg).
Proof.
  induction data as [|c data IH]; intros Hnopad quad_pos leftchar pads bin_data Hq;
    assert (Hcases : quad_pos = 0 \/ quad_pos = 1 \/ quad_pos = 2 \/ quad_pos = 3)
      by lia.
  - destruct Hcases as [-> | [-> | [-> | ->]]]; cbn; eexists; reflexivity.
  - cbn [forallb] in Hnopad. apply andb_true_iff in Hnopad as [Hc Hnopad].
    apply negb_true_iff in Hc. unfold is_pad in Hc.
    specialize (IH Hnopad).
    cbn [a2b_loop]. rewrite Hc. cbv zeta.
    unfold alphabet_count. cbn [filter]. unfold is_alphabet at 1.
    destruct (table_a2b_base64 c <? 64) eqn:Halpha.
    + apply N.ltb_lt in Halpha.
      destruct (64 <=? table_a2b_base64 c) eqn:Hle;
        [apply N.leb_le in Hle; lia|].
      destruct Hcases as [-> | [-> | [-> | ->]]]; cbn [List.length].
      * apply (IH 1); lia.
      * apply (IH 2); lia.
      * apply (IH 3); lia.
      * change (N.to_nat 3 + S (List.length (filter is_alphabet data)))%nat
          with (4 + alphabet_count data)%nat.
        replace (4 + alphabet_count data)%nat
          with (N.to_nat 0 + alphabet_count data + 1 * 4)%nat by (cbn; lia).
        rewrite Nat.Div0.mod_add. apply (IH 0); lia.
    + apply N.ltb_ge in Halpha. apply N.leb_le in Halpha. rewrite Halpha.
      apply IH, Hq.
Qed.

(** X8. A payload without pads decodes exactly when it holds a multiple of four
    alphabet characters; a truncated one raises [binascii.Error]. *)
Theorem decodebytes_unpadded data :
  forallb (fun c => negb (is_pad c)) data = true ->
  ((alphabet_count data mod 4 = 0)%nat ->
   exists raw, decodebytes data = Ok raw)
  /\ ((alphabet_count data mod 4 <> 0)%nat ->
      exists msg, decodebytes data = Raise (binascii_Error msg)).
Proof.
  intros Hnopad.
  pose proof (a2b_loop_no_pad data Hnopad 0 0 [] (quad_pos := 0) eq_refl) as H.
  change (N.to_nat 0 + alphabet_count data)%nat with (alphabet_count data) in H.
  unfold decodebytes, a2b_base64.
  destruct (alphabet_count data mod 4 =? 0)%nat eqn:Hmod.
  - apply Nat.eqb_eq in Hmod. split; [intros _; exact H|intros Hne; contradiction].
  - apply Nat.eqb_neq in Hmod. split; [intros Heq; contradiction|intros _; exact H].
Qed.

Lemma decodebytes_unpadded_witness :
  forallb (fun c => negb (is_pad c)) (ascii_bytes "Zm9vYmF") = true
  /\ (alphabet_count (ascii_bytes "Zm9vYmF") mod 4 <> 0)%nat
  /\ exists msg, decodebytes (ascii_bytes "Zm9vYmF") = Raise (binascii_Error msg).
Proof.
  split; [reflexivity|]. split; [discriminate|].
  apply (proj2 (@decodebytes_unpadded (ascii_bytes "Zm9vYmF") eq_refl)).
  discriminate.
Defined.

(** Between quads the loop has forgotten its left-over bits and pads. *)
Lemma a2b_loop_between_quads data :
  forall leftchar pads bin_data,
    a2b_loop data 0 leftchar pads bin_data = a2b_loop data 0 0 0 bin_data.
Proof.
  induction data as [|c data IH]; intros leftchar pads bin_data.
  - reflexivity.
  - cbn [a2b_loop]. cbv zeta.
    destruct (Byte.eqb c BASE64_PAD).
    + cbn. apply IH.
    + destruct (64 <=? table_a2b_base64 c); [apply IH|reflexivity].
Qed.

Lemma a2b_loop_group_more b0 b1 b2 rest more leftchar pads bin_data :
  a2b_loop (b2a_base64 (b0 :: b1 :: b2 :: rest) ++ more) 0 leftchar pads bin_data
  = a2b_loop (b2a_base64 rest ++ more) 0 0 0 (bin_data ++ [b0; b1; b2]).
Proof.
  cbn [b2a_base64 app]. cbv zeta.
  rewrite a2b_loop_alphabet by apply sextet0_lt. cbv match.
  rewrite a2b_loop_alphabet by apply sextet1_lt. cbv match.
  rewrite rebuild_byte0, leftchar1, byte_of_N_to_N.
  rewrite a2b_loop_alphabet by apply sextet2_lt. cbv match.
  rewrite rebuild_byte1, leftchar2, byte_of_N_to_N.
  rewrite a2b_loop_alphabet by apply sextet3_lt. cbv match.
  rewrite rebuild_byte2, byte_of_N_to_N.
  now rewrite <- !app_assoc.
Qed.

Lemma a2b_loop_last1_more b0 more leftchar pads bin_data :
  a2b_loop (b2a_base64 [b0] ++ more) 0 leftchar pads bin_data
  = Ok (bin_data ++ [b0]).
Proof.
  cbn [b2a_base64 app]. cbv zeta.
  rewrite a2b_loop_alphabet by apply sextet0_lt. cbv match.
  rewrite a2b_loop_alphabet by apply sextet1_last_lt. cbv match.
  rewrite rebuild_byte0_last, byte_of_N_to_N.
  reflexivity.
Qed.

Lemma a2b_loop_last2_more b0 b1 more leftchar pads bin_data :
  a2b_loop (b2a_base64 [b0; b1] ++ more) 0 leftchar pads bin_data
  = Ok (bin_data ++ [b0; b1]).
Proof.
  cbn [b2a_base64 app]. cbv zeta.
  rewrite a2b_loop_alphabet by apply sextet0_lt. cbv match.
  rewrite a2b_loop_alphabet by apply sextet1_lt. cbv match.
  rewrite rebuild_byte0, leftchar1, byte_of_N_to_N.
  rewrite a2b_loop_alphabet by apply sextet2_last_lt. cbv match.
  rewrite rebuild_byte1_last, byte_of_N_to_N.
  cbn [a2b_loop]. cbn. now rewrite <- app_assoc.
Qed.

Lemma length_mod3_step (A : Type) (a b c : A) l :
  (List.length (a :: b :: c :: l) mod 3 = List.length l mod 3)%nat.
Proof.
  cbn [List.length].
  replace (S (S (S (List.length l)))) with (List.length l + 1 * 3)%nat by lia.
  apply Nat.Div0.mod_add.
Qed.

(** An encoding followed by more input: a padded encoding ends the
    decoding, an unpadded one lets it go on between quads. *)
Lemma a2b_loop_b2a_base64_more bin more :
  forall leftchar pads bin_data,
    a2b_loop (b2a_base64 bin ++ more) 0 leftchar pads bin_data
    = if (List.length bin mod 3 =? 0)%nat
      then a2b_loop more 0 0 0 (bin_data ++ bin)
      else Ok (bin_data ++ bin).
Proof.
  induction bin as [|b0|b0 b1|b0 b1 b2 rest IH] using list_ind_triples;
    intros leftchar pads bin_data.
  - cbn [b2a_base64 app]. rewrite app_nil_r. apply a2b_loop_between_quads.
  - apply a2b_loop_last1_more.
  - apply a2b_loop_last2_more.
  - rewrite a2b_loop_group_more, IH, length_mod3_step.
    now rewrite <- app_assoc.
Qed.

(** X9. Encodings concatenate when the first one is unpadded: for [a] of a
    length divisible by three, decoding the encoding of [a] followed by the
    encoding of [b] gives [a ++ b]. *)
Theorem decodebytes_concatenated a b :
  (List.length a mod 3 = 0)%nat ->
  decodebytes (b64encode a ++ b64encode b) = Ok (a ++ b).
Proof.
  intros Hlen. unfold decodebytes, a2b_base64, b64encode.
  rewrite a2b_loop_b2a_base64_more. apply Nat.eqb_eq in Hlen. rewrite Hlen.
  apply a2b_loop_b2a_base64.
Qed.

Lemma decodebytes_concatenated_witness :
  (List.length (ascii_bytes "foo") mod 3 = 0)%nat
  /\ decodebytes (b64encode (ascii_bytes "foo") ++ b64encode (ascii_bytes "ba"))
     = Ok (ascii_bytes "foo" ++ ascii_bytes "ba").
Proof.
  split; [reflexivity|].
  apply (@decodebytes_concatenated (ascii_bytes "foo") (ascii_bytes "ba")).
  reflexivity.
Defined.

(** X10. Decoding stops at the padding: whatever follows a padded encoding,
    valid base64 or not, is never read and raises nothing. *)
Theorem decodebytes_stops_at_padding a more :
  (List.length a mod 3 <> 0)%nat ->
  decodebytes (b64encode a ++ more) = Ok a.
Proof.
  intros Hlen. unfold decodebytes, a2b_base64, b64encode.
  rewrite a2b_loop_b2a_base64_more. apply Nat.eqb_neq in Hlen. now rewrite Hlen.
Qed.

Lemma decodebytes_stops_at_padding_witness :
  (List.length (ascii_bytes "hi") mod 3 <> 0)%nat
  /\ decodebytes (b64encode (ascii_bytes "hi") ++ ascii_bytes "A")
     = Ok (ascii_bytes "hi").
Proof.
  split; [discriminate|].
  apply (@decodebytes_stops_at_padding (ascii_bytes "hi") (ascii_bytes "A")).
  discriminate.
Defined.

(** ** What the rendering cell accepts *)

Lemma utf8_encode_char_raise c e :
  utf8_encode_char c = Raise e -> e = UnicodeEncodeError.
Proof.
  unfold utf8_encode_char.
  repeat match goal with
         | |- context [if ?b then _ else _] => destruct b
         end; congruence.
Qed.

Lemma utf8_encode_char_surrogate c :
  is_surrogate c = true -> utf8_encode_char c = Raise UnicodeEncodeError.
Proof.
  unfold is_surrogate, utf8_encode_char. intros H. rewrite H.
  apply andb_true_iff in H as [Hlo _]. apply N.leb_le in Hlo.
  destruct (c <? 0x80) eqn:H1; [apply N.ltb_lt in H1; lia|].
  destruct (c <? 0x800) eqn:H2; [apply N.ltb_lt in H2; lia|].
  reflexivity.
Qed.

Lemma encode_utf8_raise s e : encode_utf8 s = Raise e -> e = UnicodeEncodeError.
Proof.
  induction s as [|c s IH]; cbn [encode_utf8]; [discriminate|].
  destruct (utf8_encode_char c) as [bs|e'] eqn:Hc; cbn [bind].
  - destruct (encode_utf8 s) as [rest|e'']; cbn [bind]; [discriminate|].
    intros [= <-]. now apply IH.
  - intros [= <-]. now apply utf8_encode_char_raise in Hc.
Qed.

(** A surrogate anywhere in a string makes [encode("utf-8")] raise. *)
Lemma encode_utf8_surrogate s :
  existsb is_surrogate s = true -> encode_utf8 s = Raise UnicodeEncodeError.
Proof.
  induction s as [|c s IH]; cbn [existsb encode_utf8]; [discriminate|].
  intros H. apply orb_true_iff in H as [Hc|Hs].
  - now rewrite utf8_encode_char_surrogate.
  - rewrite (IH Hs).
    destruct (utf8_encode_char c) as [bs|e] eqn:Hc; cbn [bind]; [reflexivity|].
    now apply utf8_encode_char_raise in Hc as ->.
Qed.

Section DecodingShapes.

Variable Image_open : bytes -> result Image.

(** X11. A parsed body without the ["artifacts"] key raises [KeyError] for that
    key; nothing is decoded. *)
Theorem decode_response_missing_artifacts d :
  dict_lookup d (py "artifacts") = None ->
  decode_response Image_open (PyDict d) = Raise (KeyError (PyStr (py "artifacts"))).
Proof.
  intros Hmiss. unfold decode_response, genimage_b64_str, getitem_str.
  now rewrite Hmiss.
Qed.

(** X12. A [base64] field that holds anything but a string (a number, [null],
    a list, an object) raises [TypeError] at [bytes(_, "utf-8")]; no base64
    decoding and no [Image.open] is attempted. *)
Theorem decode_response_payload_not_str d first others v :
  dict_lookup d (py "artifacts") = Some (PyList (PyDict first :: others)) ->
  dict_lookup first (py "base64") = Some v ->
  (forall s, v <> PyStr s) ->
  decode_response Image_open (PyDict d)
  = Raise (TypeError (py "encoding without a string argument")).
Proof.
  intros Hart Hfirst Hnot. unfold decode_response.
  rewrite (genimage_b64_str_first _ Hart). cbn [method_get].
  rewrite Hfirst. cbn [bind]. unfold open_b64.
  destruct v; try reflexivity. now destruct (Hnot s).
Qed.

(** X13. A payload string with a lone surrogate (JSON can carry one, as
    [\ud800]) raises [UnicodeEncodeError] at [bytes(_, "utf-8")]. *)
Theorem decode_response_payload_surrogate d first others s :
  dict_lookup d (py "artifacts") = Some (PyList (PyDict first :: others)) ->
  dict_lookup first (py "base64") = Some (PyStr s) ->
  existsb is_surrogate s = true ->
  decode_response Image_open (PyDict d) = Raise UnicodeEncodeError.
Proof.
  intros Hart Hfirst Hsur. unfold decode_response.
  rewrite (genimage_b64_str_first _ Hart). cbn [method_get].
  rewrite Hfirst. cbn [bind]. unfold open_b64, bytes_of.
  now rewrite encode_utf8_surrogate.
Qed.

(** X14. A payload cut short, with no pad and a number of alphabet characters
    that is no multiple of four, raises [binascii.Error]; [Image.open] is
    not reached. *)
Theorem decode_response_payload_truncated d first others s data :
  dict_lookup d (py "artifacts") = Some (PyList (PyDict first :: others)) ->
  dict_lookup first (py "base64") = Some (PyStr s) ->
  encode_utf8 s = Ok data ->
  forallb (fun c => negb (is_pad c)) data = true ->
  (alphabet_count data mod 4 <> 0)%nat ->
  exists msg, decode_response Image_open (PyDict d) = Raise (binascii_Error msg).
Proof.
  intros Hart Hfirst Henc Hnopad Hcount. unfold decode_response.
  rewrite (genimage_b64_str_first _ Hart). cbn [method_get].
  rewrite Hfirst. cbn [bind]. unfold open_b64, bytes_of.
  rewrite Henc. cbn [bind]. unfold decodebytes, a2b_base64.
  pose proof (a2b_loop_no_pad data Hnopad 0 0 [] (quad_pos := 0) eq_refl) as H.
  change (N.to_nat 0 + alphabet_count data)%nat with (alphabet_count data) in H.
  apply Nat.eqb_neq in Hcount. rewrite Hcount in H.
  destruct H as [msg ->]. now exists msg.
Qed.

End DecodingShapes.

Lemma genimage_b64_str_ok_inv body v :
  genimage_b64_str body = Ok v ->
  exists d first others,
    body = PyDict d
    /\ dict_lookup d (py "artifacts") = Some (PyList (PyDict first :: others))
    /\ v = match dict_lookup first (py "base64") with
           | Some x => x
           | None => PyNone
           end.
Proof.
  unfold genimage_b64_str. intros H.
  destruct body as [| | | | | | |d|]; try discriminate.
  cbn [getitem_str] in H.
  destruct (dict_lookup d (py "artifacts")) as [artifacts|] eqn:Hart;
    [|discriminate].
  cbn [bind] in H.
  destruct artifacts as [| | | |s|bs|l| |]; try discriminate.
  - destruct s as [|c s]; discriminate.
  - destruct bs as [|b bs]; discriminate.
  - destruct l as [|first others]; [discriminate|].
    change (method_get first (py "base64") = Ok v) in H.
    destruct first as [| | | | | | |first|]; try discriminate.
    exists d, first, others. split; [reflexivity|]. split; [exact Hart|].
    cbn [method_get] in H.
    destruct (dict_lookup first (py "base64")); now injection H as <-.
Qed.

Section DecodingInversion.

Variable Image_open : bytes -> result Image.

(** X15. An image comes out of the rendering cell one way only: the body is an
    object whose ["artifacts"] is a list with an object first, that object's
    ["base64"] is a string, the string encodes and base64-decodes, and
    [Image.open] accepts the decoded bytes. No other artifact, key or
    default is ever used. *)
Theorem decode_response_ok_inv body im :
  decode_response Image_open body = Ok im ->
  exists d first others s data raw,
    body = PyDict d
    /\ dict_lookup d (py "artifacts") = Some (PyList (PyDict first :: others))
    /\ dict_lookup first (py "base64") = Some (PyStr s)
    /\ encode_utf8 s = Ok data
    /\ decodebytes data = Ok raw
    /\ Image_open raw = Ok im.
Proof.
  unfold decode_response. intros H.
  destruct (genimage_b64_str body) as [v|e] eqn:Hv; [|discriminate].
  cbn [bind] in H.
  apply genimage_b64_str_ok_inv in Hv as (d & first & others & -> & Hart & ->).
  unfold open_b64 in H.
  destruct (dict_lookup first (py "base64")) as [v|] eqn:Hfirst; [|discriminate].
  destruct v as [| | | |s| | | |]; try discriminate.
  cbn [bytes_of] in H.
  destruct (encode_utf8 s) as [data|e] eqn:Henc; [|discriminate].
  cbn [bind] in H.
  destruct (decodebytes data) as [raw|e] eqn:Hraw; [|discriminate].
  cbn [bind] in H.
  exists d, first, others, s, data, raw. auto 10.
Qed.

End DecodingInversion.

Lemma decode_response_ok_inv_witness :
  decode_response (fun data => Ok (mkImage (1, 1) data)) (PyDict body_one)
  = Ok (mkImage (1, 1) (ascii_bytes "hi"))
  /\ exists d first others s data raw,
       PyDict body_one = PyDict d
       /\ dict_lookup d (py "artifacts") = Some (PyList (PyDict first :: others))
       /\ dict_lookup first (py "base64") = Some (PyStr s)
       /\ encode_utf8 s = Ok data
       /\ decodebytes data = Ok raw
       /\ (fun data => Ok (mkImage (1, 1) data)) raw
          = Ok (mkImage (1, 1) (ascii_bytes "hi")).
Proof.
  split; [reflexivity|].
  apply (@decode_response_ok_inv (fun data => Ok (mkImage (1, 1) data))
           (PyDict body_one) (mkImage (1, 1) (ascii_bytes "hi"))).
  reflexivity.
Defined.

(** ** What [json.dumps] writes *)

(** Induction on values, with the hypothesis for every element of a list
    and every value of a dictionary. *)
Lemma pyval_nested_ind (P : pyval -> Prop) :
  P PyNone ->
  (forall b, P (PyBool b)) ->
  (forall z, P (PyInt z)) ->
  (forall f, P (PyFloat f)) ->
  (forall s, P (PyStr s)) ->
  (forall bs, P (PyBytes bs)) ->
  (forall l, Forall P l -> P (PyList l)) ->
  (forall d, Forall (fun kv => P (snd kv)) d -> P (PyDict d)) ->
  (forall im, P (PyImage im)) ->
  forall v, P v.
Proof.
  intros HNone HBool HInt HFloat HStr HBytes HList HDict HImage.
  fix IH 1.
  intros [ |b|z|f|s|bs|l|d|im].
  - exact HNone.
  - apply HBool.
  - apply HInt.
  - apply HFloat.
  - apply HStr.
  - apply HBytes.
  - apply HList. revert l. fix IHl 1.
    intros [|x l]; constructor; [apply IH|apply IHl].
  - apply HDict. revert d. fix IHd 1.
    intros [|[k x] d]; constructor; [apply IH|apply IHd].
  - apply HImage.
Qed.

Lemma all_ascii_app a b : all_ascii (a ++ b) = all_ascii a && all_ascii b.
Proof. apply forallb_app. Qed.

Lemma hex_digit_ascii n : all_ascii [hex_digit (N.land n 15)] = true.
Proof.
  assert (Hlt : N.land n 15 < 16).
  { change 15 with (N.ones 4). rewrite N.land_ones.
    apply N.mod_lt. discriminate. }
  unfold all_ascii, hex_digit. cbn [forallb]. rewrite andb_true_r.
  apply N.ltb_lt. destruct (N.land n 15 <? 10); lia.
Qed.

Lemma hex4_ascii n : all_ascii (hex4 n) = true.
Proof.
  unfold hex4.
  change (all_ascii ([hex_digit (N.land (N.shiftr n 12) 15)]
                     ++ [hex_digit (N.land (N.shiftr n 8) 15)]
                     ++ [hex_digit (N.land (N.shiftr n 4) 15)]
                     ++ [hex_digit (N.land n 15)]) = true).
  now rewrite !all_ascii_app, !hex_digit_ascii.
Qed.

Lemma escape_char_ascii c : all_ascii (escape_char c) = true.
Proof.
  unfold escape_char.
  destruct (c =? 92); [reflexivity|].
  destruct (c =? 34); [reflexivity|].
  destruct (in_range 32 126 c) eqn:Hrange.
  { unfold in_range in Hrange. apply andb_true_iff in Hrange as [_ Hhi].
    apply N.leb_le in Hhi. unfold all_ascii. cbn [forallb].
    rewrite andb_true_r. apply N.ltb_lt. lia. }
  repeat match goal with
         | |- context [if ?b then _ else _] => destruct b; [reflexivity|]
         end.
  destruct (c <? 65536); cbv zeta; now rewrite !all_ascii_app, !hex4_ascii.
Qed.

(** With [ensure_ascii], a string literal is ASCII whatever the string. *)
Lemma encode_basestring_ascii_ascii s : all_ascii (encode_basestring_ascii s) = true.
Proof.
  unfold encode_basestring_ascii. rewrite !all_ascii_app.
  replace (all_ascii (flat_map escape_char s)) with true; [reflexivity|].
  symmetry. induction s as [|c s IH]; [reflexivity|].
  cbn [flat_map]. now rewrite all_ascii_app, escape_char_ascii.
Qed.

Lemma join_ascii sep items :
  all_ascii sep = true ->
  Forall (fun item => all_ascii item = true) items ->
  all_ascii (join sep items) = true.
Proof.
  intros Hsep. induction 1 as [|x items Hx Hitems IH]; [reflexivity|].
  cbn [join]. destruct items as [|y items]; [exact Hx|].
  now rewrite !all_ascii_app, Hx, Hsep, IH.
Qed.

Lemma json_array_ascii items :
  Forall (fun item => all_ascii item = true) items ->
  all_ascii (json_array items) = true.
Proof.
  intros H. unfold json_array.
  now rewrite !all_ascii_app, join_ascii.
Qed.

Lemma json_object_ascii pairs :
  Forall (fun pair => all_ascii pair = true) pairs ->
  all_ascii (json_object pairs) = true.
Proof.
  intros H. unfold json_object.
  now rewrite !all_ascii_app, join_ascii.
Qed.

Lemma json_pair_ascii key value :
  all_ascii value = true -> all_ascii (json_pair key value) = true.
Proof.
  intros H. unfold json_pair.
  now rewrite !all_ascii_app, encode_basestring_ascii_ascii, H.
Qed.

Lemma int_repr_ascii z : all_ascii (int_repr z) = true.
Proof.
  assert (Huint : forall u, all_ascii (py (NilZero.string_of_uint u)) = true).
  { intros u. destruct u as [|u|u|u|u|u|u|u|u|u|u]; [reflexivity|..];
      unfold NilZero.string_of_uint;
      induction u as [|u IH|u IH|u IH|u IH|u IH|u IH|u IH|u IH|u IH|u IH];
      try reflexivity; cbn in IH |- *; exact IH. }
  unfold int_repr, NilZero.string_of_int.
  destruct (Z.to_int z) as [u|u]; [apply Huint|].
  change (all_ascii (45 :: py (NilZero.string_of_uint u)) = true).
  unfold all_ascii in *. cbn [forallb]. apply Huint.
Qed.

Section SerializerProperties.

Variable float_repr : float -> str.

Lemma floatstr_ascii :
  (forall f, all_ascii (float_repr f) = true) ->
  forall o, all_ascii (floatstr float_repr o) = true.
Proof.
  intros Hrepr o. unfold floatstr.
  repeat match goal with
         | |- context [if ?b then _ else _] => destruct b; [reflexivity|]
         end.
  apply Hrepr.
Qed.

Lemma dumps_list_ascii l :
  Forall (fun v => forall body,
              json_dumps float_repr v = Ok body -> all_ascii body = true) l ->
  forall items,
    dumps_list float_repr l = Ok items ->
    Forall (fun item => all_ascii item = true) items.
Proof.
  induction 1 as [|x l Hx _ IH]; cbn [dumps_list]; intros items Hitems.
  - injection Hitems as <-. constructor.
  - destruct (json_dumps float_repr x) as [chunk|] eqn:Hchunk; [|discriminate].
    cbn [bind] in Hitems.
    destruct (dumps_list float_repr l) as [chunks|]; [|discriminate].
    injection Hitems as <-. constructor; auto.
Qed.

Lemma dumps_dict_ascii d :
  Forall (fun kv => forall body,
              json_dumps float_repr (snd kv) = Ok body -> all_ascii body = true) d ->
  forall items,
    dumps_dict float_repr d = Ok items ->
    Forall (fun item => all_ascii item = true) items.
Proof.
  induction 1 as [|[k x] d Hx _ IH]; cbn [dumps_dict snd] in *; intros items Hitems.
  - injection Hitems as <-. constructor.
  - destruct (json_dumps float_repr x) as [chunk|] eqn:Hchunk; [|discriminate].
    cbn [bind] in Hitems.
    destruct (dumps_dict float_repr d) as [chunks|]; [|discriminate].
    injection Hitems as <-. constructor; auto using json_pair_ascii.
Qed.

Lemma json_dumps_ascii :
  (forall f, all_ascii (float_repr f) = true) ->
  forall v body, json_dumps float_repr v = Ok body -> all_ascii body = true.
Proof.
  intros Hrepr v.
  induction v as [ |b|z|f|s|bs|l IH|d IH|im] using pyval_nested_ind;
    intros body Hbody; try discriminate.
  - now injection Hbody as <-.
  - destruct b; now injection Hbody as <-.
  - cbn [json_dumps] in Hbody. unfold int_str in Hbody.
    destruct (int_max_str_digits <? List.length (int_repr (Z.abs z)))%nat;
      [discriminate|].
    injection Hbody as <-. apply int_repr_ascii.
  - injection Hbody as <-. now apply floatstr_ascii.
  - injection Hbody as <-. apply encode_basestring_ascii_ascii.
  - rewrite json_dumps_list in Hbody.
    destruct (dumps_list float_repr l) as [items|] eqn:Hitems; [|discriminate].
    injection Hbody as <-. apply json_array_ascii.
    now apply (dumps_list_ascii IH).
  - rewrite json_dumps_dict in Hbody.
    destruct (dumps_dict float_repr d) as [items|] eqn:Hitems; [|discriminate].
    injection Hbody as <-. apply json_object_ascii.
    now apply (dumps_dict_ascii IH).
Qed.

(** X17. The request body is ASCII from end to end, whatever code points the
    prompts hold (they are written as [\uXXXX] escapes), as long as
    [float.__repr__] writes ASCII. *)
Theorem sd_request_ascii p ns b64 body :
  (forall f, all_ascii (float_repr f) = true) ->
  sd_request float_repr p ns b64 = Ok body ->
  all_ascii body = true.
Proof.
  intros Hrepr Hbody. exact (json_dumps_ascii Hrepr _ Hbody).
Qed.

End SerializerProperties.

(** ** The further properties at sample inputs *)

Lemma image_to_base64_ok_inv_witness :
  image_to_base64 (fun im => Ok (im_data im)) sample_fs (PyStr (py "notes.txt"))
  = Ok (py "aGk=")
  /\ exists data,
       input_bytes (fun im => Ok (im_data im)) sample_fs
         (PyStr (py "notes.txt")) data
       /\ py "aGk=" = ascii_text (b64encode data).
Proof.
  split; [reflexivity|].
  apply (@image_to_base64_ok_inv (fun im => Ok (im_data im)) sample_fs
           (PyStr (py "notes.txt")) (py "aGk=")).
  reflexivity.
Defined.

Lemma image_to_base64_raise_inv_witness :
  image_to_base64 (fun im => Ok (im_data im)) locked_fs (PyStr (py "secret.png"))
  = Raise (PermissionError 13 (py "Permission denied") (py "secret.png"))
  /\ ((exists path,
          PyStr (py "secret.png") = PyStr path
          /\ os_path_isfile locked_fs path = false
          /\ PermissionError 13 (py "Permission denied") (py "secret.png")
             = FileNotFoundError (py "File " ++ path ++ py " does not exist"))
      \/ (exists path,
             PyStr (py "secret.png") = PyStr path
             /\ os_path_isfile locked_fs path = true
             /\ open_rb_read locked_fs path
                = Raise (PermissionError 13 (py "Permission denied")
                           (py "secret.png")))
      \/ (exists im,
             PyStr (py "secret.png") = PyImage im
             /\ (fun im => Ok (im_data im)) im
                = Raise (PermissionError 13 (py "Permission denied")
                           (py "secret.png")))
      \/ ((forall path, PyStr (py "secret.png") <> PyStr path)
          /\ (forall im, PyStr (py "secret.png") <> PyImage im)
          /\ PermissionError 13 (py "Permission denied") (py "secret.png")
             = ValueError
                 (py "Expected str (filename) or PIL Image. Got "
                  ++ type_repr (PyStr (py "secret.png"))))).
Proof.
  split; [reflexivity|].
  apply (@image_to_base64_raise_inv (fun im => Ok (im_data im)) locked_fs
           (PyStr (py "secret.png"))
           (PermissionError 13 (py "Permission denied") (py "secret.png"))).
  reflexivity.
Defined.

Lemma image_to_base64_injective_witness :
  input_bytes (fun im => Ok (im_data im)) sample_fs
    (PyStr (py "notes.txt")) (ascii_bytes "hi")
  /\ input_bytes (fun im => Ok (im_data im)) (fun _ => None)
       (PyImage (mkImage (1, 1) (ascii_bytes "hi"))) (ascii_bytes "hi")
  /\ image_to_base64 (fun im => Ok (im_data im)) sample_fs (PyStr (py "notes.txt"))
     = image_to_base64 (fun im => Ok (im_data im)) (fun _ => None)
         (PyImage (mkImage (1, 1) (ascii_bytes "hi")))
  /\ ascii_bytes "hi" = ascii_bytes "hi".
Proof.
  assert (H1 : input_bytes (fun im => Ok (im_data im)) sample_fs
                 (PyStr (py "notes.txt")) (ascii_bytes "hi"))
    by (constructor; reflexivity).
  assert (H2 : input_bytes (fun im => Ok (im_data im)) (fun _ => None)
                 (PyImage (mkImage (1, 1) (ascii_bytes "hi"))) (ascii_bytes "hi"))
    by (constructor; reflexivity).
  split; [exact H1|]. split; [exact H2|]. split; [reflexivity|].
  exact (@image_to_base64_injective _ _ _ _ _ _ _ _ H1 H2 eq_refl).
Defined.

Lemma image_to_base64_size_and_alphabet_witness :
  input_bytes (fun im => Ok (im_data im)) sample_fs
    (PyStr (py "notes.txt")) (ascii_bytes "hi")
  /\ exists s,
       image_to_base64 (fun im => Ok (im_data im)) sample_fs
         (PyStr (py "notes.txt")) = Ok s
       /\ List.length s = (4 * ((List.length (ascii_bytes "hi") + 2) / 3))%nat
       /\ Forall (fun c => c < 128 /\ is_base64_char (byte_of_N c) = true) s.
Proof.
  assert (H : input_bytes (fun im => Ok (im_data im)) sample_fs
                (PyStr (py "notes.txt")) (ascii_bytes "hi"))
    by (constructor; reflexivity).
  split; [exact H|].
  exact (@image_to_base64_size_and_alphabet _ _ _ _ H).
Defined.

Lemma image_to_base64_json_verbatim_witness :
  input_bytes (fun im => Ok (im_data im)) sample_fs
    (PyStr (py "notes.txt")) (ascii_bytes "hi")
  /\ exists s,
       image_to_base64 (fun im => Ok (im_data im)) sample_fs
         (PyStr (py "notes.txt")) = Ok s
       /\ encode_basestring_ascii s = [34] ++ s ++ [34]
       /\ forall float_repr p ns,
            exists before after,
              sd_request float_repr p ns s
              = Ok (before ++ dq ", 'cfg_scale': 10, 'init_image': '" ++ s
                    ++ dq "', 'seed': 0, " ++ after).
Proof.
  assert (H : input_bytes (fun im => Ok (im_data im)) sample_fs
                (PyStr (py "notes.txt")) (ascii_bytes "hi"))
    by (constructor; reflexivity).
  split; [exact H|].
  exact (@image_to_base64_json_verbatim _ _ _ _ H).
Defined.

Lemma decode_response_of_conversion_witness :
  input_bytes (fun im => Ok (im_data im)) sample_fs
    (PyStr (py "notes.txt")) (ascii_bytes "hi")
  /\ image_to_base64 (fun im => Ok (im_data im)) sample_fs (PyStr (py "notes.txt"))
     = Ok (py "aGk=")
  /\ dict_lookup body_one (py "artifacts")
     = Some (PyList [PyDict [(py "seed", PyInt 0);
                             (py "base64", PyStr (py "aGk="))]])
  /\ dict_lookup [(py "seed", PyInt 0); (py "base64", PyStr (py "aGk="))]
       (py "base64")
     = Some (PyStr (py "aGk="))
  /\ decode_response (fun data => Ok (mkImage (1, 1) data)) (PyDict body_one)
     = Ok (mkImage (1, 1) (ascii_bytes "hi")).
Proof.
  assert (H : input_bytes (fun im => Ok (im_data im)) sample_fs
                (PyStr (py "notes.txt")) (ascii_bytes "hi"))
    by (constructor; reflexivity).
  split; [exact H|]. split; [reflexivity|]. split; [reflexivity|].
  split; [reflexivity|].
  exact (@decode_response_of_conversion
           (fun im => Ok (im_data im)) (fun data => Ok (mkImage (1, 1) data))
           sample_fs _ _ _ body_one _ [] H eq_refl eq_refl eq_refl).
Defined.

Lemma decode_response_missing_artifacts_witness :
  dict_lookup [(py "message", PyStr (py "throttled"))] (py "artifacts") = None
  /\ decode_response (fun data => Ok (mkImage (1, 1) data))
       (PyDict [(py "message", PyStr (py "throttled"))])
     = Raise (KeyError (PyStr (py "artifacts"))).
Proof.
  split; [reflexivity|].
  apply (@decode_response_missing_artifacts
           (fun data => Ok (mkImage (1, 1) data))
           [(py "message", PyStr (py "throttled"))]).
  reflexivity.
Defined.

Lemma decode_response_payload_not_str_witness :
  dict_lookup [(py "artifacts", PyList [PyDict [(py "base64", PyInt 7)]])]
    (py "artifacts")
  = Some (PyList [PyDict [(py "base64", PyInt 7)]])
  /\ dict_lookup [(py "base64", PyInt 7)] (py "base64") = Some (PyInt 7)
  /\ (forall s, PyInt 7 <> PyStr s)
  /\ decode_response (fun data => Ok (mkImage (1, 1) data))
       (PyDict [(py "artifacts", PyList [PyDict [(py "base64", PyInt 7)]])])
     = Raise (TypeError (py "encoding without a string argument")).
Proof.
  split; [reflexivity|]. split; [reflexivity|]. split; [discriminate|].
  apply (@decode_response_payload_not_str
           (fun data => Ok (mkImage (1, 1) data))
           [(py "artifacts", PyList [PyDict [(py "base64", PyInt 7)]])]
           [(py "base64", PyInt 7)] [] (PyInt 7));
    [reflexivity|reflexivity|discriminate].
Defined.

Lemma decode_response_payload_surrogate_witness :
  dict_lookup [(py "artifacts", PyList [PyDict [(py "base64", PyStr [0xD800])]])]
    (py "artifacts")
  = Some (PyList [PyDict [(py "base64", PyStr [0xD800])]])
  /\ dict_lookup [(py "base64", PyStr [0xD800])] (py "base64")
     = Some (PyStr [0xD800])
  /\ existsb is_surrogate [0xD800] = true
  /\ decode_response (fun data => Ok (mkImage (1, 1) data))
       (PyDict [(py "artifacts", PyList [PyDict [(py "base64", PyStr [0xD800])]])])
     = Raise UnicodeEncodeError.
Proof.
  split; [reflexivity|]. split; [reflexivity|]. split; [reflexivity|].
  apply (@decode_response_payload_surrogate
           (fun data => Ok (mkImage (1, 1) data))
           [(py "artifacts", PyList [PyDict [(py "base64", PyStr [0xD800])]])]
           [(py "base64", PyStr [0xD800])] [] [0xD800]);
    reflexivity.
Defined.

Lemma decode_response_payload_truncated_witness :
  dict_lookup
    [(py "artifacts", PyList [PyDict [(py "base64", PyStr (py "Zm9vYmF"))]])]
    (py "artifacts")
  = Some (PyList [PyDict [(py "base64", PyStr (py "Zm9vYmF"))]])
  /\ dict_lookup [(py "base64", PyStr (py "Zm9vYmF"))] (py "base64")
     = Some (PyStr (py "Zm9vYmF"))
  /\ encode_utf8 (py "Zm9vYmF") = Ok (ascii_bytes "Zm9vYmF")
  /\ forallb (fun c => negb (is_pad c)) (ascii_bytes "Zm9vYmF") = true
  /\ (alphabet_count (ascii_bytes "Zm9vYmF") mod 4 <> 0)%nat
  /\ exists msg,
       decode_response (fun data => Ok (mkImage (1, 1) data))
         (PyDict
            [(py "artifacts",
              PyList [PyDict [(py "base64", PyStr (py "Zm9vYmF"))]])])
       = Raise (binascii_Error msg).
Proof.
  split; [reflexivity|]. split; [reflexivity|]. split; [reflexivity|].
  split; [reflexivity|]. split; [discriminate|].
  apply (@decode_response_payload_truncated
           (fun data => Ok (mkImage (1, 1) data))
           [(py "artifacts", PyList [PyDict [(py "base64", PyStr (py "Zm9vYmF"))]])]
           [(py "base64", PyStr (py "Zm9vYmF"))] [] (py "Zm9vYmF")
           (ascii_bytes "Zm9vYmF"));
    try reflexivity.
  discriminate.
Defined.

Lemma sd_request_ascii_witness :
  (forall f : float, all_ascii ((fun _ => py "0.5") f) = true)
  /\ sd_request (fun _ => py "0.5") [0xE9; 0x1F600] [[0x4E2D]] (py "aGk=")
     = Ok (sd_request_text (fun _ => py "0.5") [0xE9; 0x1F600] [[0x4E2D]]
             (py "aGk="))
  /\ all_ascii (sd_request_text (fun _ => py "0.5") [0xE9; 0x1F600] [[0x4E2D]]
                  (py "aGk=")) = true.
Proof.
  split; [intros f; reflexivity|]. split; [reflexivity|].
  apply (@sd_request_ascii (fun _ => py "0.5") [0xE9; 0x1F600] [[0x4E2D]]
           (py "aGk=")).
  - intros f. reflexivity.
  - reflexivity.
Defined.
